(** * Calendar state hook ([useCalendarState]) of react-stately

    A shallow embedding of the calendar state manager: the values a render
    of the hook computes, the state it keeps between renders, the update it
    performs while rendering (calendar switch, clamping of the focused date,
    realignment of the visible window) and the operations of the view model
    it returns.

    The hook is written against three things that are not part of its own
    source file: the internationalized date library, the controlled-state
    helper and the window helpers of [./utils].  The date library is an
    interface here (a type class with the few laws the development uses),
    the other two are modelled from the specification, except for two
    window helpers the specification is silent about, which are parameters.

    State is passed explicitly.  A render maps the state it reads to the
    state its setter calls leave; an operation of the returned state object
    is a closure over the values of the render that created it and maps
    the state at the time of the call to the updated state. *)

From Stdlib Require Import ZArith List String Bool Lia.
Import ListNotations.
Local Open Scope string_scope.
Local Open Scope Z_scope.

(** ** The date library *)

(** A relative offset.  The fields of the source are optional numbers; an
    absent field and a zero field are treated alike everywhere they are read
    ([duration.days || 0] in the library, [if (visibleDuration.days)] in the
    hook), so absence is [0]. *)
Record DateDuration : Type := mkDuration {
  years : Z;
  months : Z;
  weeks : Z;
  days : Z
}.

Definition ofDays (n : Z) : DateDuration :=
  {| years := 0; months := 0; weeks := 0; days := n |}.

Definition ofWeeks (n : Z) : DateDuration :=
  {| years := 0; months := 0; weeks := n; days := 0 |}.

Definition ofMonths (n : Z) : DateDuration :=
  {| years := 0; months := n; weeks := 0; days := 0 |}.

Definition ofYears (n : Z) : DateDuration :=
  {| years := n; months := 0; weeks := 0; days := 0 |}.

Definition invertDuration (d : DateDuration) : DateDuration :=
  {| years := - years d; months := - months d;
     weeks := - weeks d; days := - days d |}.

(** JavaScript truthiness of an optional number. *)
Definition truthy (n : Z) : bool := negb (n =? 0).

(** Modelled from the spec: the date library ([@internationalized/date]),
    which the hook imports and whose code is not among the sources.  A
    [CalendarDate] is an immutable point in a specific calendar system that
    supports adding and subtracting durations and comparison; [toJulianDay]
    is the absolute day a date denotes, the quantity the library compares
    dates by.  The laws say that converting between calendar systems keeps
    the absolute day and yields a date of the requested system, and that
    offsets counted in weeks and days move the absolute day by that many
    days (dates are taken away from the ends of the range a calendar system
    can represent).  Nothing is assumed about offsets in months or years.
    [today] is the date the clock gives in a time zone, and
    [resolvedCalendar] and [resolvedTimeZone] are the calendar name and the
    time zone the date formatter resolves for a locale. *)
Class DateLibrary : Type := {
  Calendar : Type;
  CalendarDate : Type;
  identifier : Calendar -> string;
  GregorianCalendar : Calendar;
  calendarOf : CalendarDate -> Calendar;
  toJulianDay : CalendarDate -> Z;
  toCalendar : CalendarDate -> Calendar -> CalendarDate;
  add : CalendarDate -> DateDuration -> CalendarDate;
  today : string -> CalendarDate;
  resolvedCalendar : string -> string;
  resolvedTimeZone : string -> string;
  toCalendar_day :
    forall d c, toJulianDay (toCalendar d c) = toJulianDay d;
  toCalendar_identifier :
    forall d c, identifier (calendarOf (toCalendar d c)) = identifier c;
  add_day_count :
    forall d w n,
      toJulianDay (add d {| years := 0; months := 0; weeks := w; days := n |})
      = toJulianDay d + 7 * w + n
}.

Section Dates.
Context {L : DateLibrary}.

Definition subtract (d : CalendarDate) (dur : DateDuration) : CalendarDate :=
  add d (invertDuration dur).

(** [a.compare(b)]: negative, zero or positive as [a] is before, the same
    day as, or after [b]. *)
Definition compare (a b : CalendarDate) : Z := toJulianDay a - toJulianDay b.

Definition isSameDay (a b : CalendarDate) : bool :=
  toJulianDay a =? toJulianDay b.

Definition maxDate (a b : CalendarDate) : CalendarDate :=
  if compare a b >=? 0 then a else b.

Definition minDate (a b : CalendarDate) : CalendarDate :=
  if compare a b <=? 0 then a else b.

(** Time of day of a date-time value. *)
Record TimeOfDay : Type := mkTimeOfDay {
  hour : Z;
  minute : Z;
  second : Z;
  millisecond : Z
}.

(** The union [CalendarDate | CalendarDateTime | ZonedDateTime]: a date,
    with a time of day when the value has an [hour] field and a time zone
    when it has a [timeZone] field. *)
Record DateValue : Type := mkDateValue {
  dateOf : CalendarDate;
  timeOf : option TimeOfDay;
  zoneOf : option string
}.

Definition plainDate (d : CalendarDate) : DateValue :=
  {| dateOf := d; timeOf := None; zoneOf := None |}.

Definition toCalendarDate (v : DateValue) : CalendarDate := dateOf v.

Definition hasHour (v : DateValue) : bool :=
  match timeOf v with Some _ => true | None => false end.

(** Modelled from the spec: [value.set(fields)] of the date library, called
    with the date fields of a date of the value's own calendar system; it
    replaces the date and keeps time of day and time zone. *)
Definition set (v : DateValue) (d : CalendarDate) : DateValue :=
  {| dateOf := d; timeOf := timeOf v; zoneOf := zoneOf v |}.

End Dates.

(** ** The window helpers of [./utils] *)

Section Utils.
Context {L : DateLibrary}.

(** Modelled from the spec: [isInvalid] of [./utils], which is not among the
    sources.  A date is invalid when a lower bound is given and the date
    lies before it, or an upper bound is given and the date lies after it. *)
Definition isInvalid (date : CalendarDate) (minValue maxValue : option DateValue)
  : bool :=
  match minValue with
  | Some mn => compare date (toCalendarDate mn) <? 0
  | None => false
  end
  ||
  match maxValue with
  | Some mx => compare date (toCalendarDate mx) >? 0
  | None => false
  end.

(** Modelled from the spec: [constrainValue] of [./utils], which is not
    among the sources.  The date is clamped to the bounds that are given:
    raised to the lower bound, then lowered to the upper bound. *)
Definition constrainValue (date : CalendarDate)
  (minValue maxValue : option DateValue) : CalendarDate :=
  let date :=
    match minValue with
    | Some mn => maxDate date (toCalendarDate mn)
    | None => date
    end in
  match maxValue with
  | Some mx => minDate date (toCalendarDate mx)
  | None => date
  end.

(** Modelled from the spec: [alignStart] of [./utils], which is not among
    the sources.  The window is placed so that the date is at its start.
    The spec gives the bounds no part in the placement. *)
Definition alignStart (date : CalendarDate) (duration : DateDuration)
  (locale : string) (minValue maxValue : option DateValue) : CalendarDate :=
  date.

(** Modelled from the spec: [alignEnd] of [./utils], which is not among the
    sources.  The window is placed so that the date is at its end: as the
    end of a window is its start plus the duration minus one day, the start
    is the date plus one day minus the duration. *)
Definition alignEnd (date : CalendarDate) (duration : DateDuration)
  (locale : string) (minValue maxValue : option DateValue) : CalendarDate :=
  subtract (add date (ofDays 1)) duration.

End Utils.

(** ** The hook *)

Inductive Alignment : Type := atStart | atCenter | atEnd.

(** What the hook reports to its owner: calls of [props.onChange] and of
    [props.onFocusChange]. *)
Inductive Notification {L : DateLibrary} : Type :=
| onChange (v : DateValue)
| onFocusChange (d : CalendarDate).

(** [CalendarStateOptions].  An optional property that is not given is
    [None]; an optional flag that is not given is [false]. *)
Record CalendarStateOptions {L : DateLibrary} : Type := mkOptions {
  locale : string;
  createCalendar : string -> Calendar;
  visibleDurationOption : option DateDuration;
  minValue : option DateValue;
  maxValue : option DateValue;
  valueOption : option DateValue;
  defaultValue : option DateValue;
  focusedValue : option DateValue;
  defaultFocusedValue : option DateValue;
  selectionAlignment : option Alignment;
  isDisabled : bool;
  isReadOnly : bool;
  autoFocus : bool;
  isDateUnavailable : option (CalendarDate -> bool)
}.

(** What the hook keeps from one render to the next: the internal values of
    the two controlled states, the two plain states, the reference cell
    with the last calendar identifier, and the notifications sent so far
    (newest first). *)
Record HookState {L : DateLibrary} : Type := mkHookState {
  valueState : option DateValue;
  focusedState : CalendarDate;
  startDate : CalendarDate;
  isFocused : bool;
  lastCalendarIdentifier : string;
  notified : list Notification
}.

Section Hook.
Context {L : DateLibrary}.

(** [alignCenter] and [constrainStart] of [./utils] are not among the
    sources and the spec does not describe what they compute; the hook is
    studied for every choice of them. *)
Variable alignCenter :
  CalendarDate -> DateDuration -> string ->
  option DateValue -> option DateValue -> CalendarDate.
Variable constrainStart :
  CalendarDate -> CalendarDate -> DateDuration -> string ->
  option DateValue -> option DateValue -> CalendarDate.

(** Modelled from the spec: [useControlledState] of [@react-stately/utils],
    which is not among the sources.  The value of an optionally controlled
    state is the controlling property when it is given and the internal
    state otherwise. *)
Definition useControlledState {A : Type} (controlled : option A) (stateValue : A)
  : A :=
  match controlled with
  | Some v => v
  | None => stateValue
  end.

(** *** Values computed by a render *)

Definition visibleDuration (props : CalendarStateOptions) : DateDuration :=
  match visibleDurationOption props with
  | Some d => d
  | None => ofMonths 1
  end.

Definition calendar (props : CalendarStateOptions) : Calendar :=
  createCalendar props (resolvedCalendar (locale props)).

Definition value (props : CalendarStateOptions) (s : HookState)
  : option DateValue :=
  useControlledState (option_map Some (valueOption props)) (valueState s).

Definition calendarDateValueOf (props : CalendarStateOptions)
  (v : option DateValue) : option CalendarDate :=
  match v with
  | Some v => Some (toCalendar (toCalendarDate v) (calendar props))
  | None => None
  end.

Definition calendarDateValue (props : CalendarStateOptions) (s : HookState)
  : option CalendarDate :=
  calendarDateValueOf props (value props s).

Definition timeZoneOf (props : CalendarStateOptions) (v : option DateValue)
  : string :=
  match v with
  | Some v =>
      match zoneOf v with
      | Some z => z
      | None => resolvedTimeZone (locale props)
      end
  | None => resolvedTimeZone (locale props)
  end.

Definition timeZone (props : CalendarStateOptions) (s : HookState) : string :=
  timeZoneOf props (value props s).

Definition focusedCalendarDate (props : CalendarStateOptions)
  : option CalendarDate :=
  match focusedValue props with
  | Some fv =>
      Some (constrainValue (toCalendar (toCalendarDate fv) (calendar props))
              (minValue props) (maxValue props))
  | None => None
  end.

Definition defaultFocusedCalendarDateOf (props : CalendarStateOptions)
  (v : option DateValue) : CalendarDate :=
  constrainValue
    match defaultFocusedValue props with
    | Some dv => toCalendar (toCalendarDate dv) (calendar props)
    | None =>
        match calendarDateValueOf props v with
        | Some d => d
        | None => toCalendar (today (timeZoneOf props v)) (calendar props)
        end
    end
    (minValue props) (maxValue props).

Definition focusedDate (props : CalendarStateOptions) (s : HookState)
  : CalendarDate :=
  useControlledState (focusedCalendarDate props) (focusedState s).

Definition endDate (props : CalendarStateOptions) (s : HookState)
  : CalendarDate :=
  subtract (add (startDate s) (visibleDuration props)) (ofDays 1).

(** *** State setters *)

(** Modelled from the spec: the setter [useControlledState] returns.  It
    stores the new value when the state is not controlled and reports it to
    the change handler in either case. *)
Definition setControlledValue (props : CalendarStateOptions) (v : DateValue)
  (s : HookState) : HookState :=
  {| valueState :=
       match valueOption props with
       | Some _ => valueState s
       | None => Some v
       end;
     focusedState := focusedState s;
     startDate := startDate s;
     isFocused := isFocused s;
     lastCalendarIdentifier := lastCalendarIdentifier s;
     notified := onChange v :: notified s |}.

(** Modelled from the spec: the setter of the focused date that
    [useControlledState] returns (the hook's local [setFocusedDate]). *)
Definition setFocusedDateState (props : CalendarStateOptions)
  (d : CalendarDate) (s : HookState) : HookState :=
  {| valueState := valueState s;
     focusedState :=
       match focusedValue props with
       | Some _ => focusedState s
       | None => d
       end;
     startDate := startDate s;
     isFocused := isFocused s;
     lastCalendarIdentifier := lastCalendarIdentifier s;
     notified := onFocusChange d :: notified s |}.

Definition setStartDate (d : CalendarDate) (s : HookState) : HookState :=
  {| valueState := valueState s;
     focusedState := focusedState s;
     startDate := d;
     isFocused := isFocused s;
     lastCalendarIdentifier := lastCalendarIdentifier s;
     notified := notified s |}.

Definition setFocused (b : bool) (s : HookState) : HookState :=
  {| valueState := valueState s;
     focusedState := focusedState s;
     startDate := startDate s;
     isFocused := b;
     lastCalendarIdentifier := lastCalendarIdentifier s;
     notified := notified s |}.

Definition setLastCalendarIdentifier (id : string) (s : HookState) : HookState :=
  {| valueState := valueState s;
     focusedState := focusedState s;
     startDate := startDate s;
     isFocused := isFocused s;
     lastCalendarIdentifier := id;
     notified := notified s |}.

(** *** Mounting and rendering *)

(** The initial value of the [startDate] state. *)
Definition initialStartDate (props : CalendarStateOptions)
  (focused : CalendarDate) : CalendarDate :=
  match selectionAlignment props with
  | Some atStart =>
      alignStart focused (visibleDuration props) (locale props)
        (minValue props) (maxValue props)
  | Some atEnd =>
      alignEnd focused (visibleDuration props) (locale props)
        (minValue props) (maxValue props)
  | _ =>
      alignCenter focused (visibleDuration props) (locale props)
        (minValue props) (maxValue props)
  end.

(** The state the first render starts from: every state cell holds its
    initial value. *)
Definition mount (props : CalendarStateOptions) : HookState :=
  let v0 :=
    match valueOption props with
    | Some v => Some v
    | None => defaultValue props
    end in
  let f0 :=
    match focusedCalendarDate props with
    | Some d => d
    | None => defaultFocusedCalendarDateOf props v0
    end in
  {| valueState := v0;
     focusedState := f0;
     startDate := initialStartDate props f0;
     isFocused := autoFocus props;
     lastCalendarIdentifier := identifier (calendar props);
     notified := [] |}.

(** The calendar identifier differs from the one the last render saw. *)
Definition calendarChanged (props : CalendarStateOptions) (s : HookState)
  : bool :=
  negb (String.eqb (identifier (calendar props)) (lastCalendarIdentifier s)).

(** The state updates one render of the hook body performs.  The tests read
    the values of this render ([focusedDate], [startDate]); the setters
    queue updates, of which the last one for a state cell is the one that
    counts. *)
Definition render (props : CalendarStateOptions) (s : HookState) : HookState :=
  let focused := focusedDate props s in
  let start := startDate s in
  let s1 :=
    if calendarChanged props s then
      let newFocusedDate := toCalendar focused (calendar props) in
      setLastCalendarIdentifier (identifier (calendar props))
        (setFocusedDateState props newFocusedDate
           (setStartDate
              (alignCenter newFocusedDate (visibleDuration props)
                 (locale props) (minValue props) (maxValue props))
              s))
    else s in
  if isInvalid focused (minValue props) (maxValue props) then
    setFocusedDateState props
      (constrainValue focused (minValue props) (maxValue props)) s1
  else if compare focused start <? 0 then
    setStartDate
      (alignEnd focused (visibleDuration props) (locale props)
         (minValue props) (maxValue props)) s1
  else if compare focused (add start (visibleDuration props)) >=? 0 then
    setStartDate
      (alignStart focused (visibleDuration props) (locale props)
         (minValue props) (maxValue props)) s1
  else s1.

(** A render during which a state setter takes effect is followed by
    another render at once.  The setter of the focused date takes effect
    only when the focused date is not controlled. *)
Definition updates (props : CalendarStateOptions) (s : HookState) : bool :=
  let focused := focusedDate props s in
  calendarChanged props s
  || (if isInvalid focused (minValue props) (maxValue props) then
        match focusedValue props with
        | Some _ => false
        | None => true
        end
      else
        (compare focused (startDate s) <? 0)
        || (compare focused (add (startDate s) (visibleDuration props)) >=? 0)).

(** Rendering is repeated until a render sets no state; that render is the
    one committed, and the result is the state it read, which is what its
    state object shows.  The framework gives up after a bounded number of
    renders, which is [None] here. *)
Fixpoint commit (fuel : nat) (props : CalendarStateOptions) (s : HookState)
  : option HookState :=
  if updates props s then
    match fuel with
    | O => None
    | S fuel' => commit fuel' props (render props s)
    end
  else Some s.

(** *** The operations of the returned state object *)

(** The state object a render returns is a bundle of closures: its
    operations read the values of that render ([focusedDate], [startDate],
    [value], the properties) and queue updates of the state.  Below,
    [props] and [seen] are the properties and the state that render read,
    and [s] is the state the operation updates; as long as nothing happened
    since the render, [s] is [seen]. *)

Definition focusCell (props : CalendarStateOptions) (date : CalendarDate)
  (s : HookState) : HookState :=
  let date := constrainValue date (minValue props) (maxValue props) in
  setFocusedDateState props date s.

Definition setValue (props : CalendarStateOptions) (seen : HookState)
  (newValue : CalendarDate) (s : HookState) : HookState :=
  if negb (isDisabled props) && negb (isReadOnly props) then
    let newValue :=
      toCalendar newValue
        match value props seen with
        | Some v => calendarOf (dateOf v)
        | None => GregorianCalendar
        end in
    match value props seen with
    | Some v =>
        if hasHour v then setControlledValue props (set v newValue) s
        else setControlledValue props (plainDate newValue) s
    | None => setControlledValue props (plainDate newValue) s
    end
  else s.

Definition setFocusedDate (props : CalendarStateOptions) (date : CalendarDate)
  (s : HookState) : HookState :=
  setFocused true (focusCell props date s).

Definition focusNextDay (props : CalendarStateOptions) (seen s : HookState)
  : HookState :=
  focusCell props (add (focusedDate props seen) (ofDays 1)) s.

Definition focusPreviousDay (props : CalendarStateOptions) (seen s : HookState)
  : HookState :=
  focusCell props (subtract (focusedDate props seen) (ofDays 1)) s.

Definition focusNextPage (props : CalendarStateOptions) (seen s : HookState)
  : HookState :=
  let start := add (startDate seen) (visibleDuration props) in
  setStartDate
    (constrainStart (focusedDate props seen) start (visibleDuration props)
       (locale props) (minValue props) (maxValue props))
    (setFocusedDateState props
       (constrainValue (add (focusedDate props seen) (visibleDuration props))
          (minValue props) (maxValue props))
       s).

Definition focusPreviousPage (props : CalendarStateOptions) (seen s : HookState)
  : HookState :=
  let start := subtract (startDate seen) (visibleDuration props) in
  setStartDate
    (constrainStart (focusedDate props seen) start (visibleDuration props)
       (locale props) (minValue props) (maxValue props))
    (setFocusedDateState props
       (constrainValue
          (subtract (focusedDate props seen) (visibleDuration props))
          (minValue props) (maxValue props))
       s).

Definition focusNextRow (props : CalendarStateOptions) (seen s : HookState)
  : HookState :=
  let d := visibleDuration props in
  if truthy (days d) then focusNextPage props seen s
  else if truthy (weeks d) || truthy (months d) || truthy (years d) then
    focusCell props (add (focusedDate props seen) (ofWeeks 1)) s
  else s.

Definition focusPreviousRow (props : CalendarStateOptions) (seen s : HookState)
  : HookState :=
  let d := visibleDuration props in
  if truthy (days d) then focusPreviousPage props seen s
  else if truthy (weeks d) || truthy (months d) || truthy (years d) then
    focusCell props (subtract (focusedDate props seen) (ofWeeks 1)) s
  else s.

Definition focusPageStart (props : CalendarStateOptions) (seen s : HookState)
  : HookState :=
  focusCell props (startDate seen) s.

Definition focusPageEnd (props : CalendarStateOptions) (seen s : HookState)
  : HookState :=
  focusCell props (endDate props seen) s.

Definition focusNextSection (props : CalendarStateOptions) (seen s : HookState)
  : HookState :=
  let d := visibleDuration props in
  if truthy (days d) then focusNextPage props seen s
  else if truthy (weeks d) then
    focusCell props (add (focusedDate props seen) (ofMonths 1)) s
  else if truthy (months d) || truthy (years d) then
    focusCell props (add (focusedDate props seen) (ofYears 1)) s
  else s.

Definition focusPreviousSection (props : CalendarStateOptions)
  (seen s : HookState) : HookState :=
  let d := visibleDuration props in
  if truthy (days d) then focusPreviousPage props seen s
  else if truthy (weeks d) then
    focusCell props (subtract (focusedDate props seen) (ofMonths 1)) s
  else if truthy (months d) || truthy (years d) then
    focusCell props (subtract (focusedDate props seen) (ofYears 1)) s
  else s.

Definition selectFocusedDate (props : CalendarStateOptions)
  (seen s : HookState) : HookState :=
  setValue props seen (focusedDate props seen) s.

Definition selectDate (props : CalendarStateOptions) (seen : HookState)
  (date : CalendarDate) (s : HookState) : HookState :=
  setValue props seen date s.

(** *** The queries of the returned state object *)

Definition isInvalidDate (props : CalendarStateOptions) (date : CalendarDate)
  : bool :=
  isInvalid date (minValue props) (maxValue props).

Definition isCellUnavailable (props : CalendarStateOptions)
  (date : CalendarDate) : bool :=
  match isDateUnavailable props with
  | Some f => f date
  | None => false
  end.

Definition isCellDisabled (props : CalendarStateOptions) (seen : HookState)
  (date : CalendarDate) : bool :=
  isDisabled props
  || (compare date (startDate seen) <? 0)
  || (compare date (endDate props seen) >? 0)
  || isInvalidDate props date.

Definition isSelected (props : CalendarStateOptions) (seen : HookState)
  (date : CalendarDate) : bool :=
  match calendarDateValue props seen with
  | Some v =>
      isSameDay date v
      && negb (isCellDisabled props seen date)
      && negb (isCellUnavailable props date)
  | None => false
  end.

Definition isCellFocused (props : CalendarStateOptions) (seen : HookState)
  (date : CalendarDate) : bool :=
  isFocused seen && isSameDay date (focusedDate props seen).

Definition isPreviousVisibleRangeInvalid (props : CalendarStateOptions)
  (seen : HookState) : bool :=
  isInvalidDate props (subtract (startDate seen) (ofDays 1)).

Definition isNextVisibleRangeInvalid (props : CalendarStateOptions)
  (seen : HookState) : bool :=
  isInvalidDate props (add (endDate props seen) (ofDays 1)).

(** The [visibleRange] of the returned state object, start and end. *)
Definition visibleRange (props : CalendarStateOptions) (seen : HookState)
  : CalendarDate * CalendarDate :=
  (startDate seen, endDate props seen).

(** *** Runs of the hook *)

(** A call of one of the operations of a state object. *)
Inductive Action : Type :=
| SetFocusedDate (date : CalendarDate)
| FocusNextDay
| FocusPreviousDay
| FocusNextRow
| FocusPreviousRow
| FocusNextPage
| FocusPreviousPage
| FocusPageStart
| FocusPageEnd
| FocusNextSection
| FocusPreviousSection
| SelectFocusedDate
| SelectDate (date : CalendarDate)
| SetFocused (b : bool).

Definition perform (props : CalendarStateOptions) (seen : HookState)
  (a : Action) (s : HookState) : HookState :=
  match a with
  | SetFocusedDate date => setFocusedDate props date s
  | FocusNextDay => focusNextDay props seen s
  | FocusPreviousDay => focusPreviousDay props seen s
  | FocusNextRow => focusNextRow props seen s
  | FocusPreviousRow => focusPreviousRow props seen s
  | FocusNextPage => focusNextPage props seen s
  | FocusPreviousPage => focusPreviousPage props seen s
  | FocusPageStart => focusPageStart props seen s
  | FocusPageEnd => focusPageEnd props seen s
  | FocusNextSection => focusNextSection props seen s
  | FocusPreviousSection => focusPreviousSection props seen s
  | SelectFocusedDate => selectFocusedDate props seen s
  | SelectDate date => selectDate props seen date s
  | SetFocused b => setFocused b s
  end.

(** A mounted hook: the properties and the state the latest render read,
    which the operations of the latest state object are closed over, and
    the state as it is now. *)
Record Mounted : Type := mkMounted {
  renderedProps : CalendarStateOptions;
  renderedState : HookState;
  current : HookState
}.

(** One thing that happens to a mounted hook: a render under the properties
    the owner passes at that moment, or a call of an operation of the
    latest state object. *)
Inductive Step : Type :=
| Rendering (props : CalendarStateOptions)
| Calling (a : Action).

Definition step (m : Mounted) (st : Step) : Mounted :=
  match st with
  | Rendering props =>
      {| renderedProps := props;
         renderedState := current m;
         current := render props (current m) |}
  | Calling a =>
      {| renderedProps := renderedProps m;
         renderedState := renderedState m;
         current := perform (renderedProps m) (renderedState m) a (current m) |}
  end.

Definition run (steps : list Step) (m : Mounted) : Mounted :=
  fold_left step steps m.

(** The hook after its first render. *)
Definition mounted (props : CalendarStateOptions) : Mounted :=
  {| renderedProps := props;
     renderedState := mount props;
     current := render props (mount props) |}.

(** The properties a step renders under, if it is a render. *)
Definition renderingProps (st : Step) : option CalendarStateOptions :=
  match st with
  | Rendering props => Some props
  | Calling _ => None
  end.

(** *** Predicates of the statements *)

(** The bounds that are given are in order. *)
Definition boundsOrdered (minValue maxValue : option DateValue) : Prop :=
  match minValue, maxValue with
  | Some mn, Some mx => toJulianDay (dateOf mn) <= toJulianDay (dateOf mx)
  | _, _ => True
  end.

(** Every render of a run is under the bounds [mn] and [mx]. *)
Definition rendersUnder (mn mx : option DateValue) (steps : list Step) : Prop :=
  Forall
    (fun st =>
       match renderingProps st with
       | Some props => minValue props = mn /\ maxValue props = mx
       | None => True
       end)
    steps.

(** A duration counted in weeks and days only, at least one day long. *)
Definition dayCounted (d : DateDuration) : Prop :=
  years d = 0 /\ months d = 0 /\ 0 < 7 * weeks d + days d.

(** The focused date lies in the window that starts at [startDate] and is
    [visibleDuration] long. *)
Definition inWindow (props : CalendarStateOptions) (s : HookState) : Prop :=
  toJulianDay (startDate s) <= toJulianDay (focusedDate props s)
  /\ toJulianDay (focusedDate props s)
     < toJulianDay (add (startDate s) (visibleDuration props)).

(** The visible range, both ends included, contains the focused date. *)
Definition inVisibleRange (props : CalendarStateOptions) (s : HookState) : Prop :=
  toJulianDay (fst (visibleRange props s)) <= toJulianDay (focusedDate props s)
  /\ toJulianDay (focusedDate props s)
     <= toJulianDay (snd (visibleRange props s)).

(** The stored focused date is within the bounds [mn] and [mx]. *)
Definition storedFocusValid (mn mx : option DateValue) (s : HookState) : Prop :=
  isInvalid (focusedState s) mn mx = false.

(** What a run keeps: the latest render was under the bounds, and both the
    state it read and the state as it is now hold a focused date within
    them. *)
Definition keptWithin (mn mx : option DateValue) (m : Mounted) : Prop :=
  minValue (renderedProps m) = mn
  /\ maxValue (renderedProps m) = mx
  /\ storedFocusValid mn mx (renderedState m)
  /\ storedFocusValid mn mx (current m).

(** The end of the visible range is its start plus the visible duration
    minus one day, and the day after the end is the day the start plus the
    visible duration falls on; for a duration counted in weeks and days the
    range is that many days long. *)
Definition rangeSpansDuration (props : CalendarStateOptions) (s : HookState)
  : Prop :=
  let range := visibleRange props s in
  snd range = subtract (add (fst range) (visibleDuration props)) (ofDays 1)
  /\ toJulianDay (add (snd range) (ofDays 1))
     = toJulianDay (add (fst range) (visibleDuration props))
  /\ (years (visibleDuration props) = 0 -> months (visibleDuration props) = 0 ->
      toJulianDay (snd range) - toJulianDay (fst range) + 1
      = 7 * weeks (visibleDuration props) + days (visibleDuration props)).

(** The calendar system values are emitted in: that of the value the
    render saw, Gregorian when there is none. *)
Definition emittedCalendar (props : CalendarStateOptions) (seen : HookState)
  : Calendar :=
  match value props seen with
  | Some v => calendarOf (dateOf v)
  | None => GregorianCalendar
  end.

(** State [s'] is state [s] after the selection of [date] was emitted: one
    change notification was sent, with a value that is [date] converted to
    the emitted calendar system, carries the time of day and time zone of
    the original value when that has a time of day, and is a plain date
    otherwise; the value is stored when the state is not controlled, and
    nothing else changed. *)
Definition emitsSelection (props : CalendarStateOptions) (seen s : HookState)
  (date : CalendarDate) (s' : HookState) : Prop :=
  exists v : DateValue,
    s' = setControlledValue props v s
    /\ notified s' = onChange v :: notified s
    /\ (valueOption props = None -> valueState s' = Some v)
    /\ dateOf v = toCalendar date (emittedCalendar props seen)
    /\ identifier (calendarOf (dateOf v))
       = identifier (emittedCalendar props seen)
    /\ toJulianDay (dateOf v) = toJulianDay date
    /\ (forall orig, value props seen = Some orig -> hasHour orig = true ->
         timeOf v = timeOf orig /\ zoneOf v = zoneOf orig)
    /\ ((forall orig, value props seen = Some orig -> hasHour orig = false) ->
        v = plainDate (dateOf v)).

End Hook.

(** ** A date library for worked examples *)

(** A schematic calendar: a date is a calendar identifier and an absolute
    day, every month has thirty days and every year twelve months.  It
    implements the interface above and serves the examples below. *)
Definition schematicAdd (d : string * Z) (dur : DateDuration) : string * Z :=
  (fst d, snd d + 360 * years dur + 30 * months dur + 7 * weeks dur + days dur).

Lemma schematic_toCalendar_day :
  forall (d : string * Z) (c : string), snd (c, snd d) = snd d.
Proof. reflexivity. Qed.

Lemma schematic_toCalendar_identifier :
  forall (d : string * Z) (c : string), fst (c, snd d) = c.
Proof. reflexivity. Qed.

Lemma schematic_add_day_count :
  forall (d : string * Z) (w n : Z),
    snd (schematicAdd d {| years := 0; months := 0; weeks := w; days := n |})
    = snd d + 7 * w + n.
Proof. intros d w n. unfold schematicAdd. simpl. lia. Qed.

Definition Schematic : DateLibrary :=
  {| Calendar := string;
     CalendarDate := string * Z;
     identifier := fun c => c;
     GregorianCalendar := "gregory";
     calendarOf := fst;
     toJulianDay := snd;
     toCalendar := fun d c => (c, snd d);
     add := schematicAdd;
     today := fun _ => ("gregory", 0);
     resolvedCalendar :=
       fun locale => if String.eqb locale "fa-IR" then "persian" else "gregory";
     resolvedTimeZone := fun _ => "UTC";
     toCalendar_day := schematic_toCalendar_day;
     toCalendar_identifier := schematic_toCalendar_identifier;
     add_day_count := schematic_add_day_count |}.

Module Example.

(** A choice of the two helpers the hook is parametric in: the window is
    centred by stepping back half the duration, and a proposed start is
    taken as it is. *)
Definition center (date : @CalendarDate Schematic) (duration : DateDuration)
  (locale : string) (mn mx : option (@DateValue Schematic))
  : @CalendarDate Schematic :=
  @subtract Schematic date
    {| years := years duration / 2; months := months duration / 2;
       weeks := weeks duration / 2; days := days duration / 2 |}.

Definition keep (date aligned : @CalendarDate Schematic)
  (duration : DateDuration) (locale : string)
  (mn mx : option (@DateValue Schematic)) : @CalendarDate Schematic :=
  aligned.

Definition gregorian (day : Z) : @CalendarDate Schematic := ("gregory", day).

(** A week-long calendar with dates from day 1 to day [lastDay], shown to
    locale [loc], disabled or not, with controlled value [v] if any. *)
Definition options (loc : string) (lastDay : Z) (disabled : bool)
  (v : option (@DateValue Schematic)) : @CalendarStateOptions Schematic :=
  {| locale := loc;
     createCalendar := fun name : string => (name : @Calendar Schematic);
     visibleDurationOption := Some (ofDays 7);
     minValue := Some (@plainDate Schematic (gregorian 1));
     maxValue := Some (@plainDate Schematic (gregorian lastDay));
     valueOption := v;
     defaultValue := None;
     focusedValue := None;
     defaultFocusedValue := None;
     selectionAlignment := None;
     isDisabled := disabled;
     isReadOnly := false;
     autoFocus := false;
     isDateUnavailable := None |}.

(** Dates up to day 10. *)
Definition week : @CalendarStateOptions Schematic :=
  options "en-US" 10 false None.

(** The same calendar with dates up to day 100. *)
Definition weekOfHundred : @CalendarStateOptions Schematic :=
  options "en-US" 100 false None.

(** The same calendar shown to a Persian locale. *)
Definition weekPersian : @CalendarStateOptions Schematic :=
  options "fa-IR" 10 false None.

(** The same calendar, disabled. *)
Definition weekDisabled : @CalendarStateOptions Schematic :=
  options "en-US" 10 true None.

(** Noon of a day of the Persian calendar, in a time zone. *)
Definition noon (day : Z) : @DateValue Schematic :=
  {| dateOf := (("persian", day) : @CalendarDate Schematic);
     timeOf :=
       Some {| hour := 12; minute := 0; second := 0; millisecond := 0 |};
     zoneOf := Some "Asia/Tehran" |}.

(** The same calendar with noon of day 3 selected. *)
Definition weekAtNoon : @CalendarStateOptions Schematic :=
  options "en-US" 10 false (Some (noon 3)).

(** The same calendar with day 10 selected. *)
Definition weekDayTen : @CalendarStateOptions Schematic :=
  options "en-US" 10 false (Some (@plainDate Schematic (gregorian 10))).

(** A state in which day [focus] is focused and the window starts at day
    [start]. *)
Definition at_ (focus start : Z) : @HookState Schematic :=
  {| valueState := None;
     focusedState := gregorian focus;
     startDate := gregorian start;
     isFocused := false;
     lastCalendarIdentifier := "gregory";
     notified := [] |}.

(** A calendar with the default visible duration of one month, dates from
    day 1 to day 100. *)
Definition month : @CalendarStateOptions Schematic :=
  {| locale := "en-US";
     createCalendar := fun name : string => (name : @Calendar Schematic);
     visibleDurationOption := None;
     minValue := Some (@plainDate Schematic (gregorian 1));
     maxValue := Some (@plainDate Schematic (gregorian 100));
     valueOption := None;
     defaultValue := None;
     focusedValue := None;
     defaultFocusedValue := None;
     selectionAlignment := None;
     isDisabled := false;
     isReadOnly := false;
     autoFocus := false;
     isDateUnavailable := None |}.

(** A week-long calendar whose bounds are out of order: dates from day 1
    to day 0. *)
Definition weekOutOfOrder : @CalendarStateOptions Schematic :=
  options "en-US" 0 false None.


End Example.

(** ** More notions for the hook *)

Section HookNotions.
Context {L : DateLibrary}.

(** The state cells of the hook, without the record of notifications. *)
Definition cells (s : HookState)
  : option DateValue * CalendarDate * CalendarDate * bool * string :=
  (valueState s, focusedState s, startDate s, isFocused s,
   lastCalendarIdentifier s).

(** The operations that turn the page. *)
Definition turnsPage (a : Action) : bool :=
  match a with
  | FocusNextPage | FocusPreviousPage => true
  | _ => false
  end.

(** The operations that select. *)
Definition selects (a : Action) : bool :=
  match a with
  | SelectFocusedDate | SelectDate _ => true
  | _ => false
  end.

(** The operations that move the focus by a row or by a section. *)
Definition movesByRowOrSection (a : Action) : bool :=
  match a with
  | FocusNextRow | FocusPreviousRow
  | FocusNextSection | FocusPreviousSection => true
  | _ => false
  end.

(** A duration none of whose fields is set. *)
Definition emptyDuration (d : DateDuration) : bool :=
  negb (truthy (days d)) && negb (truthy (weeks d))
  && negb (truthy (months d)) && negb (truthy (years d)).

(** The value the hook starts with: the controlling property, or else the
    default value. *)
Definition initialValue (props : CalendarStateOptions) : option DateValue :=
  match valueOption props with
  | Some v => Some v
  | None => defaultValue props
  end.

(** A duration that moves every date: to a later day when it is added and
    to an earlier day when it is subtracted. *)
Definition advances (dur : DateDuration) : Prop :=
  forall d : CalendarDate,
    toJulianDay (subtract d dur) < toJulianDay d
    /\ toJulianDay d < toJulianDay (add d dur).

(** The start of the window that the realignment tests of a render (source
    lines 112 to 116) leave, for the focused date and the start of the
    window the render read. *)
Definition realignedFrom (props : CalendarStateOptions)
  (focused start : CalendarDate) : CalendarDate :=
  if compare focused start <? 0 then
    alignEnd focused (visibleDuration props) (locale props)
      (minValue props) (maxValue props)
  else if compare focused (add start (visibleDuration props)) >=? 0 then
    alignStart focused (visibleDuration props) (locale props)
      (minValue props) (maxValue props)
  else start.


End HookNotions.

(** ** A date library with uneven months *)

(** Another schematic calendar, in which going a month forward moves a date
    by 28 days and going a month back moves it by 31 days, as the step from
    the end of March to the end of February and back does.  It implements
    the interface as well. *)
Definition unevenAdd (d : string * Z) (dur : DateDuration) : string * Z :=
  (fst d,
   snd d + 360 * years dur
   + (if 0 <=? months dur then 28 * months dur else 31 * months dur)
   + 7 * weeks dur + days dur).

Lemma uneven_add_day_count :
  forall (d : string * Z) (w n : Z),
    snd (unevenAdd d {| years := 0; months := 0; weeks := w; days := n |})
    = snd d + 7 * w + n.
Proof. intros d w n. unfold unevenAdd. simpl. lia. Qed.

Definition Uneven : DateLibrary :=
  {| Calendar := string;
     CalendarDate := string * Z;
     identifier := fun c => c;
     GregorianCalendar := "gregory";
     calendarOf := fst;
     toJulianDay := snd;
     toCalendar := fun d c => (c, snd d);
     add := unevenAdd;
     today := fun _ => ("gregory", 0);
     resolvedCalendar := fun _ => "gregory";
     resolvedTimeZone := fun _ => "UTC";
     toCalendar_day := schematic_toCalendar_day;
     toCalendar_identifier := schematic_toCalendar_identifier;
     add_day_count := uneven_add_day_count |}.

Module UnevenExample.

(** The window is centred by taking the date itself. *)
Definition center (date : @CalendarDate Uneven) (duration : DateDuration)
  (locale : string) (mn mx : option (@DateValue Uneven))
  : @CalendarDate Uneven :=
  date.

(** A calendar with the default visible duration of one month and dates
    from day 1 to day 100. *)
Definition month : @CalendarStateOptions Uneven :=
  {| locale := "en-US";
     createCalendar := fun name : string => (name : @Calendar Uneven);
     visibleDurationOption := None;
     minValue := Some (@plainDate Uneven (("gregory", 1) : @CalendarDate Uneven));
     maxValue :=
       Some (@plainDate Uneven (("gregory", 100) : @CalendarDate Uneven));
     valueOption := None;
     defaultValue := None;
     focusedValue := None;
     defaultFocusedValue := None;
     selectionAlignment := None;
     isDisabled := false;
     isReadOnly := false;
     autoFocus := false;
     isDateUnavailable := None |}.

(** Day [focus] is focused and the window starts at day [start]. *)
Definition at_ (focus start : Z) : @HookState Uneven :=
  {| valueState := None;
     focusedState := (("gregory", focus) : @CalendarDate Uneven);
     startDate := (("gregory", start) : @CalendarDate Uneven);
     isFocused := false;
     lastCalendarIdentifier := "gregory";
     notified := [] |}.

End UnevenExample.

(** ** The branch action ([.github/actions/branch/index.js]) *)

(** The script of the action that mirrors a pull request from a fork as a
    branch of the base repository.  It talks to the hosting service through
    four requests; every request either throws an error or gives a result.
    The script makes each request at most once in a run, so the service is
    a function from requests to outcomes here, and a run is described by
    the requests it made, in order, and by the message it failed with, if
    it called [core.setFailed]. *)
Module BranchAction.

(** A thrown error, with the fields the script reads. *)
Record JsError : Type := mkError {
  name : string;
  status : option Z;
  message : string
}.

(** [context.repo]. *)
Record Repo : Type := mkRepo {
  owner : string;
  repo : string
}.

(** [github.context], with the fields the script reads. *)
Record Context : Type := mkContext {
  contextRepo : Repo;
  issueNumber : Z
}.

(** The [data] of a pull request, with the fields the script reads; the
    merge commit can be absent. *)
Record PullRequest : Type := mkPullRequest {
  userLogin : string;
  headRef : string;
  mergeCommitSha : option string
}.

(** The response to the branch lookup, with the field the script reads. *)
Record Response : Type := mkResponse {
  responseStatus : Z
}.

Inductive Request : Type :=
| PullsGet (r : Repo) (pull_number : Z)
| GetBranch (r : Repo) (branch : string)
| CreateRef (r : Repo) (ref : string) (sha : option string)
| UpdateRef (r : Repo) (sha : option string) (ref : string) (force : bool).

(** The client: what each request gives. *)
Record Octokit : Type := mkOctokit {
  pulls_get : Repo -> Z -> JsError + PullRequest;
  repos_getBranch : Repo -> string -> JsError + Response;
  git_createRef : Repo -> string -> option string -> JsError + unit;
  git_updateRef : Repo -> option string -> string -> bool -> JsError + unit
}.

(** A piece of script: given the requests made so far, it throws or gives
    a result, and extends the list of requests. *)
Definition Script (A : Type) : Type :=
  list Request -> (JsError + A) * list Request.

Definition ret {A : Type} (a : A) : Script A :=
  fun log => (inr a, log).

Definition throw {A : Type} (e : JsError) : Script A :=
  fun log => (inl e, log).

Definition bind {A B : Type} (m : Script A) (k : A -> Script B) : Script B :=
  fun log =>
    match m log with
    | (inl e, log') => (inl e, log')
    | (inr a, log') => k a log'
    end.

(** [try { m } catch (error) { handler }]. *)
Definition tryCatch {A : Type} (m : Script A) (handler : JsError -> Script A)
  : Script A :=
  fun log =>
    match m log with
    | (inl e, log') => handler e log'
    | (inr a, log') => (inr a, log')
    end.

(** [await] of a request: the request is made and its outcome is thrown or
    returned. *)
Definition await {A : Type} (r : Request) (outcome : JsError + A) : Script A :=
  fun log => (outcome, app log [r]).

Notation "x <- m ;; k" := (bind m (fun x => k))
  (at level 61, m at next level, right associativity).

(** [error.name === 'HttpError' && error.status === 404]. *)
Definition isNotFound (error : JsError) : bool :=
  String.eqb (name error) "HttpError"
  && match status error with
     | Some st => st =? 404
     | None => false
     end.

(** The name of the branch for a pull request. *)
Definition branchOf (data : PullRequest) : string :=
  (userLogin data ++ "-" ++ headRef data)%string.

(** The body of the outer [try] block.  The lookup gives [None] when the
    [catch] block of the lookup returned from the function. *)
Definition body (octokit : Octokit) (context : Context) : Script unit :=
  let prNumber := issueNumber context in
  data <- await (PullsGet (contextRepo context) prNumber)
            (pulls_get octokit (contextRepo context) prNumber) ;;
  let branch := branchOf data in
  let ref := ("refs/heads/" ++ branch)%string in
  let sha := mergeCommitSha data in
  res <- tryCatch
           (r <- await (GetBranch (contextRepo context) branch)
                   (repos_getBranch octokit (contextRepo context) branch) ;;
            ret (Some r))
           (fun error =>
              if negb (isNotFound error) then throw error
              else
                _ <- await (CreateRef (contextRepo context) ref sha)
                       (git_createRef octokit (contextRepo context) ref sha) ;;
                ret None) ;;
  match res with
  | None => ret tt
  | Some res =>
      if responseStatus res =? 200 then
        await
          (UpdateRef (contextRepo context) sha ("heads/" ++ branch)%string true)
          (git_updateRef octokit (contextRepo context) sha
             ("heads/" ++ branch)%string true)
      else ret tt
  end.

(** What a run did: the requests it made, in order, and the message passed
    to [core.setFailed], if any. *)
Record Outcome : Type := mkOutcome {
  requests : list Request;
  failed : option string
}.

Definition run (octokit : Octokit) (context : Context) : Outcome :=
  match body octokit context [] with
  | (inl error, log) => {| requests := log; failed := Some (message error) |}
  | (inr _, log) => {| requests := log; failed := None |}
  end.

(** The requests that write to the repository. *)
Definition isWrite (r : Request) : bool :=
  match r with
  | CreateRef _ _ _ | UpdateRef _ _ _ _ => true
  | _ => false
  end.

(** The error a request is answered with, if it is. *)
Definition errorOf (octokit : Octokit) (r : Request) : option JsError :=
  let errorIn {A : Type} (outcome : JsError + A) : option JsError :=
    match outcome with
    | inl e => Some e
    | inr _ => None
    end in
  match r with
  | PullsGet rp n => errorIn (pulls_get octokit rp n)
  | GetBranch rp b => errorIn (repos_getBranch octokit rp b)
  | CreateRef rp ref sha => errorIn (git_createRef octokit rp ref sha)
  | UpdateRef rp sha ref force => errorIn (git_updateRef octokit rp sha ref force)
  end.

(** An error the script puts up with: the branch that was looked up does not
    exist. *)
Definition tolerated (r : Request) (e : JsError) : bool :=
  match r with
  | GetBranch _ _ => isNotFound e
  | _ => false
  end.

End BranchAction.

(** ** Facts about dates and bounds *)

(** Boolean comparisons of absolute days are decided case by case. *)
Ltac by_days :=
  rewrite ?Z.geb_leb, ?Z.gtb_ltb in *;
  repeat match goal with
  | H : context [?a <=? ?b] |- _ => destruct (Z.leb_spec a b)
  | H : context [?a <? ?b] |- _ => destruct (Z.ltb_spec a b)
  | |- context [?a <=? ?b] => destruct (Z.leb_spec a b)
  | |- context [?a <? ?b] => destruct (Z.ltb_spec a b)
  end;
  simpl in *; try reflexivity; try discriminate; try lia.

Section DateFacts.
Context {L : DateLibrary}.

Lemma add_days_day (d : CalendarDate) (n : Z) :
  toJulianDay (add d (ofDays n)) = toJulianDay d + n.
Proof. unfold ofDays. rewrite add_day_count. lia. Qed.

Lemma subtract_days_day (d : CalendarDate) (n : Z) :
  toJulianDay (subtract d (ofDays n)) = toJulianDay d - n.
Proof.
  unfold subtract, ofDays, invertDuration. simpl.
  rewrite add_day_count. lia.
Qed.

Lemma add_dayCounted (d : CalendarDate) (dur : DateDuration) :
  years dur = 0 -> months dur = 0 ->
  toJulianDay (add d dur) = toJulianDay d + (7 * weeks dur + days dur).
Proof.
  destruct dur as [y m w n]. cbn [years months weeks days]. intros -> ->.
  rewrite add_day_count. lia.
Qed.

Lemma subtract_dayCounted (d : CalendarDate) (dur : DateDuration) :
  years dur = 0 -> months dur = 0 ->
  toJulianDay (subtract d dur) = toJulianDay d - (7 * weeks dur + days dur).
Proof.
  destruct dur as [y m w n]. cbn [years months weeks days]. intros -> ->.
  unfold subtract, invertDuration. cbn [years months weeks days].
  change (- 0) with 0. rewrite add_day_count. lia.
Qed.

(** Validity of a date depends on its absolute day only. *)
Lemma isInvalid_same_day (a b : CalendarDate) (mn mx : option DateValue) :
  toJulianDay a = toJulianDay b -> isInvalid a mn mx = isInvalid b mn mx.
Proof.
  intros E. unfold isInvalid, compare. rewrite E. reflexivity.
Qed.

Lemma isInvalid_false (d : CalendarDate) (mn mx : option DateValue) :
  isInvalid d mn mx = false <->
  (forall m, mn = Some m -> toJulianDay (dateOf m) <= toJulianDay d)
  /\ (forall m, mx = Some m -> toJulianDay d <= toJulianDay (dateOf m)).
Proof.
  unfold isInvalid, compare, toCalendarDate.
  rewrite orb_false_iff. split.
  - intros [Hmn Hmx]. split; intros m ->; by_days.
  - intros [Hmn Hmx]. split.
    + destruct mn as [m|]; [|reflexivity].
      specialize (Hmn m eq_refl). by_days.
    + destruct mx as [m|]; [|reflexivity].
      specialize (Hmx m eq_refl). by_days.
Qed.

(** Clamping to ordered bounds gives a date within them. *)
Lemma constrainValue_valid (d : CalendarDate) (mn mx : option DateValue) :
  boundsOrdered mn mx -> isInvalid (constrainValue d mn mx) mn mx = false.
Proof.
  intros Hord. apply isInvalid_false.
  unfold constrainValue, maxDate, minDate, compare, toCalendarDate.
  unfold boundsOrdered in Hord.
  destruct mn as [a|], mx as [b|]; split; intros m E;
    try discriminate E; injection E as <-; by_days.
Qed.

(** Clamping leaves a date within the bounds alone. *)
Lemma constrainValue_fixes_valid (d : CalendarDate) (mn mx : option DateValue) :
  isInvalid d mn mx = false -> constrainValue d mn mx = d.
Proof.
  intros H. apply isInvalid_false in H. destruct H as [Hmn Hmx].
  unfold constrainValue, maxDate, minDate, compare, toCalendarDate.
  destruct mn as [a|]; [specialize (Hmn a eq_refl)|];
    (destruct mx as [b|]; [specialize (Hmx b eq_refl)|]); by_days.
Qed.

End DateFacts.

(** ** Properties of the hook *)

Section HookFacts.
Context {L : DateLibrary}.
Variable alignCenter :
  CalendarDate -> DateDuration -> string ->
  option DateValue -> option DateValue -> CalendarDate.
Variable constrainStart :
  CalendarDate -> CalendarDate -> DateDuration -> string ->
  option DateValue -> option DateValue -> CalendarDate.

(** *** The focused date stays within the bounds *)

Lemma setFocusedDateState_valid props d mn mx s :
  storedFocusValid mn mx s -> isInvalid d mn mx = false ->
  storedFocusValid mn mx (setFocusedDateState props d s).
Proof.
  unfold storedFocusValid, setFocusedDateState. simpl.
  destruct (focusedValue props); auto.
Qed.

Lemma focusedDate_valid props mn mx s :
  minValue props = mn -> maxValue props = mx -> boundsOrdered mn mx ->
  storedFocusValid mn mx s ->
  isInvalid (focusedDate props s) mn mx = false.
Proof.
  intros <- <- Hord Hs.
  unfold focusedDate, focusedCalendarDate, useControlledState.
  destruct (focusedValue props); [apply constrainValue_valid|]; assumption.
Qed.

Lemma focusCell_valid props date mn mx s :
  minValue props = mn -> maxValue props = mx -> boundsOrdered mn mx ->
  storedFocusValid mn mx s ->
  storedFocusValid mn mx (focusCell props date s).
Proof.
  intros Hmn Hmx Hord Hs. unfold focusCell.
  apply setFocusedDateState_valid; [assumption|].
  rewrite Hmn, Hmx. apply constrainValue_valid; assumption.
Qed.

Lemma setValue_focusedState props seen date s :
  focusedState (setValue props seen date s) = focusedState s.
Proof.
  unfold setValue.
  destruct (negb (isDisabled props) && negb (isReadOnly props));
    [|reflexivity].
  destruct (value props seen) as [v|]; [destruct (hasHour v)|]; reflexivity.
Qed.

Lemma focusNextPage_valid props seen mn mx s :
  minValue props = mn -> maxValue props = mx -> boundsOrdered mn mx ->
  storedFocusValid mn mx s ->
  storedFocusValid mn mx (focusNextPage constrainStart props seen s).
Proof.
  intros Hmn Hmx Hord Hs. unfold focusNextPage.
  change (storedFocusValid mn mx
            (setFocusedDateState props
               (constrainValue
                  (add (focusedDate props seen) (visibleDuration props))
                  (minValue props) (maxValue props)) s)).
  apply setFocusedDateState_valid; [assumption|].
  rewrite Hmn, Hmx. apply constrainValue_valid; assumption.
Qed.

Lemma focusPreviousPage_valid props seen mn mx s :
  minValue props = mn -> maxValue props = mx -> boundsOrdered mn mx ->
  storedFocusValid mn mx s ->
  storedFocusValid mn mx (focusPreviousPage constrainStart props seen s).
Proof.
  intros Hmn Hmx Hord Hs. unfold focusPreviousPage.
  change (storedFocusValid mn mx
            (setFocusedDateState props
               (constrainValue
                  (subtract (focusedDate props seen) (visibleDuration props))
                  (minValue props) (maxValue props)) s)).
  apply setFocusedDateState_valid; [assumption|].
  rewrite Hmn, Hmx. apply constrainValue_valid; assumption.
Qed.

Lemma render_valid props mn mx s :
  minValue props = mn -> maxValue props = mx -> boundsOrdered mn mx ->
  storedFocusValid mn mx s ->
  storedFocusValid mn mx (render alignCenter props s).
Proof.
  intros Hmn Hmx Hord Hs.
  pose proof (focusedDate_valid props mn mx s Hmn Hmx Hord Hs) as HF.
  unfold render. rewrite Hmn, Hmx, HF.
  assert (H1 : storedFocusValid mn mx
    (if calendarChanged props s
     then
       setLastCalendarIdentifier (identifier (calendar props))
         (setFocusedDateState props
            (toCalendar (focusedDate props s) (calendar props))
            (setStartDate
               (alignCenter (toCalendar (focusedDate props s) (calendar props))
                  (visibleDuration props) (locale props) mn mx) s))
     else s)).
  { destruct (calendarChanged props s); [|assumption].
    change (storedFocusValid mn mx
              (setFocusedDateState props
                 (toCalendar (focusedDate props s) (calendar props)) s)).
    apply setFocusedDateState_valid; [assumption|].
    rewrite (isInvalid_same_day _ (focusedDate props s));
      [assumption | apply toCalendar_day]. }
  destruct (compare (focusedDate props s) (startDate s) <? 0); [exact H1|].
  destruct (compare (focusedDate props s)
              (add (startDate s) (visibleDuration props)) >=? 0); exact H1.
Qed.

(** No operation moves the stored focused date out of the bounds, whatever
    render its state object comes from. *)
Lemma perform_valid props seen a mn mx s :
  minValue props = mn -> maxValue props = mx -> boundsOrdered mn mx ->
  storedFocusValid mn mx s ->
  storedFocusValid mn mx (perform constrainStart props seen a s).
Proof.
  intros Hmn Hmx Hord Hs.
  pose proof (fun d => focusCell_valid props d mn mx s Hmn Hmx Hord Hs)
    as Hcell.
  pose proof (focusNextPage_valid props seen mn mx s Hmn Hmx Hord Hs)
    as Hnext.
  pose proof (focusPreviousPage_valid props seen mn mx s Hmn Hmx Hord Hs)
    as Hprev.
  destruct a; simpl.
  - exact (Hcell date).
  - apply Hcell.
  - apply Hcell.
  - unfold focusNextRow.
    destruct (truthy (days (visibleDuration props))); [exact Hnext|].
    destruct (truthy _ || truthy _ || truthy _); [apply Hcell | exact Hs].
  - unfold focusPreviousRow.
    destruct (truthy (days (visibleDuration props))); [exact Hprev|].
    destruct (truthy _ || truthy _ || truthy _); [apply Hcell | exact Hs].
  - exact Hnext.
  - exact Hprev.
  - apply Hcell.
  - apply Hcell.
  - unfold focusNextSection.
    destruct (truthy (days (visibleDuration props))); [exact Hnext|].
    destruct (truthy (weeks (visibleDuration props))); [apply Hcell|].
    destruct (truthy _ || truthy _); [apply Hcell | exact Hs].
  - unfold focusPreviousSection.
    destruct (truthy (days (visibleDuration props))); [exact Hprev|].
    destruct (truthy (weeks (visibleDuration props))); [apply Hcell|].
    destruct (truthy _ || truthy _); [apply Hcell | exact Hs].
  - unfold storedFocusValid, selectFocusedDate.
    rewrite setValue_focusedState. exact Hs.
  - unfold storedFocusValid, selectDate.
    rewrite setValue_focusedState. exact Hs.
  - exact Hs.
Qed.

Lemma mount_valid props :
  boundsOrdered (minValue props) (maxValue props) ->
  storedFocusValid (minValue props) (maxValue props) (mount alignCenter props).
Proof.
  intros Hord. unfold storedFocusValid, mount, focusedCalendarDate. simpl.
  destruct (focusedValue props).
  - apply constrainValue_valid; assumption.
  - unfold defaultFocusedCalendarDateOf. apply constrainValue_valid; assumption.
Qed.

Lemma step_kept mn mx m st :
  boundsOrdered mn mx ->
  match renderingProps st with
  | Some props => minValue props = mn /\ maxValue props = mx
  | None => True
  end ->
  keptWithin mn mx m ->
  keptWithin mn mx (step alignCenter constrainStart m st).
Proof.
  intros Hord Hst (Hmn & Hmx & Hseen & Hcur).
  destruct st as [props|a]; cbn [renderingProps step] in *.
  - destruct Hst as [Hpmn Hpmx]. repeat split; cbn; try assumption.
    apply render_valid; assumption.
  - repeat split; cbn; try assumption.
    apply perform_valid; assumption.
Qed.

Lemma run_kept steps : forall mn mx m,
  boundsOrdered mn mx -> rendersUnder mn mx steps ->
  keptWithin mn mx m ->
  keptWithin mn mx (run alignCenter constrainStart steps m).
Proof.
  unfold run, rendersUnder.
  induction steps as [|st rest IH]; intros mn mx m Hord Hall Hm.
  - exact Hm.
  - inversion Hall as [|? ? Hst Hrest]; subst. cbn [fold_left].
    apply IH; [assumption | assumption |].
    apply step_kept; assumption.
Qed.

Lemma mounted_kept props :
  boundsOrdered (minValue props) (maxValue props) ->
  keptWithin (minValue props) (maxValue props) (mounted alignCenter props).
Proof.
  intros Hord. unfold keptWithin, mounted. cbn.
  repeat split.
  - apply mount_valid; assumption.
  - apply render_valid; auto. apply mount_valid; assumption.
Qed.

(** C1.  Along every run of the mounted hook (renders and calls of the
    operations in any order, under properties that may change from render
    to render but keep the same bounds, the bounds being in order when both
    are given), the focused date never lies before [minValue] nor after
    [maxValue]: neither the one the latest render computed nor the one the
    state holds now. *)
Theorem focused_date_within_bounds :
  forall (props0 : CalendarStateOptions) (steps : list Step),
    boundsOrdered (minValue props0) (maxValue props0) ->
    rendersUnder (minValue props0) (maxValue props0) steps ->
    let m := run alignCenter constrainStart steps (mounted alignCenter props0) in
    isInvalid (focusedDate (renderedProps m) (renderedState m))
      (minValue props0) (maxValue props0) = false
    /\ isInvalid (focusedDate (renderedProps m) (current m))
         (minValue props0) (maxValue props0) = false.
Proof.
  intros props0 steps Hord Hall m.
  destruct (run_kept steps (minValue props0) (maxValue props0)
              (mounted alignCenter props0) Hord Hall (mounted_kept props0 Hord))
    as (Hmn & Hmx & Hseen & Hcur).
  split; apply focusedDate_valid; assumption.
Qed.

(** *** Renders and the committed state *)

Ltac open_state :=
  unfold focusedDate, focusedCalendarDate, useControlledState,
    setFocusedDateState, setStartDate, setLastCalendarIdentifier,
    calendarChanged in *;
  cbn [valueState focusedState startDate isFocused lastCalendarIdentifier
       notified] in *.

(** Under ordered bounds a controlled focused date is valid, so a render
    sets no state exactly when none of its four tests fires. *)
Lemma updates_false props s :
  boundsOrdered (minValue props) (maxValue props) ->
  updates props s = false <->
  calendarChanged props s = false
  /\ isInvalid (focusedDate props s) (minValue props) (maxValue props) = false
  /\ (compare (focusedDate props s) (startDate s) <? 0) = false
  /\ (compare (focusedDate props s)
        (add (startDate s) (visibleDuration props)) >=? 0) = false.
Proof.
  intros Hord. unfold updates. rewrite orb_false_iff. split.
  - intros [Hc H]. split; [assumption|].
    destruct (isInvalid (focusedDate props s) _ _) eqn:Hi.
    + exfalso. revert Hi H.
      unfold focusedDate, focusedCalendarDate, useControlledState.
      destruct (focusedValue props); [|discriminate].
      rewrite constrainValue_valid by assumption. discriminate.
    + apply orb_false_iff in H. tauto.
  - intros (Hc & Hi & Hlt & Hge). rewrite Hi, Hlt, Hge. auto.
Qed.

(** A render that has nothing to update leaves the state as it is. *)
Lemma settled_render props s :
  boundsOrdered (minValue props) (maxValue props) ->
  updates props s = false -> render alignCenter props s = s.
Proof.
  intros Hord H. apply updates_false in H; [|assumption].
  destruct H as (Hc & Hi & Hlt & Hge).
  unfold render. rewrite Hc, Hi, Hlt, Hge. reflexivity.
Qed.

(** After a render the calendar identifier on record is the current one. *)
Lemma render_current props s :
  calendarChanged props (render alignCenter props s) = false.
Proof.
  assert (Hid : forall x : string, negb (String.eqb x x) = false)
    by (intros x; rewrite String.eqb_refl; reflexivity).
  unfold render.
  destruct (calendarChanged props s) eqn:Hc;
    destruct (isInvalid _ _ _);
    try destruct (compare _ (startDate s) <? 0);
    try destruct (compare _ (add _ _) >=? 0);
    open_state; auto.
Qed.

(** After a render the focused date is within ordered bounds. *)
Lemma render_focus_valid props s :
  boundsOrdered (minValue props) (maxValue props) ->
  isInvalid (focusedDate props (render alignCenter props s))
    (minValue props) (maxValue props) = false.
Proof.
  intros Hord.
  destruct (focusedValue props) as [fv|] eqn:Hfv.
  - unfold focusedDate, focusedCalendarDate, useControlledState.
    rewrite Hfv. apply constrainValue_valid; assumption.
  - unfold render.
    destruct (isInvalid (focusedDate props s) _ _) eqn:Hi.
    + destruct (calendarChanged props s); open_state; rewrite Hfv;
        apply constrainValue_valid; assumption.
    + assert (Hconv :
        isInvalid (toCalendar (focusedDate props s) (calendar props))
          (minValue props) (maxValue props) = false).
      { rewrite (isInvalid_same_day _ (focusedDate props s));
          [assumption | apply toCalendar_day]. }
      destruct (calendarChanged props s);
        destruct (compare _ (startDate s) <? 0);
        try destruct (compare _ (add _ _) >=? 0);
        open_state; rewrite Hfv in *; assumption.
Qed.

(** A window opened at a date contains it, and so does a window closed at
    it, when the duration is counted in days. *)
Lemma alignStart_covers (d : CalendarDate) dur loc mn mx :
  dayCounted dur ->
  toJulianDay (alignStart d dur loc mn mx) <= toJulianDay d
  /\ toJulianDay d < toJulianDay (add (alignStart d dur loc mn mx) dur).
Proof.
  intros (Hy & Hm & Hpos). unfold alignStart.
  rewrite add_dayCounted by assumption. lia.
Qed.

Lemma alignEnd_covers (d : CalendarDate) dur loc mn mx :
  dayCounted dur ->
  toJulianDay (alignEnd d dur loc mn mx) <= toJulianDay d
  /\ toJulianDay d < toJulianDay (add (alignEnd d dur loc mn mx) dur).
Proof.
  intros (Hy & Hm & Hpos). unfold alignEnd.
  rewrite add_dayCounted, subtract_dayCounted, add_days_day by assumption.
  lia.
Qed.

(** From a state with a valid focused date and the current calendar on
    record, one render reaches a state that needs no update. *)
Lemma render_settles props s :
  boundsOrdered (minValue props) (maxValue props) ->
  dayCounted (visibleDuration props) ->
  calendarChanged props s = false ->
  isInvalid (focusedDate props s) (minValue props) (maxValue props) = false ->
  updates props (render alignCenter props s) = false.
Proof.
  intros Hord Hdur Hc Hi.
  pose proof (alignStart_covers (focusedDate props s) (visibleDuration props)
                (locale props) (minValue props) (maxValue props) Hdur)
    as [Hs1 Hs2].
  pose proof (alignEnd_covers (focusedDate props s) (visibleDuration props)
                (locale props) (minValue props) (maxValue props) Hdur)
    as [He1 He2].
  apply updates_false; [assumption|].
  unfold render. rewrite Hc, Hi.
  destruct (compare (focusedDate props s) (startDate s) <? 0) eqn:Hlt;
    [|destruct (compare (focusedDate props s)
                  (add (startDate s) (visibleDuration props)) >=? 0) eqn:Hge].
  - change (focusedDate props (setStartDate ?d s)) with (focusedDate props s).
    cbn [setStartDate startDate].
    repeat split; try assumption; unfold compare; by_days.
  - change (focusedDate props (setStartDate ?d s)) with (focusedDate props s).
    cbn [setStartDate startDate].
    repeat split; try assumption; unfold compare; by_days.
  - repeat split; assumption.
Qed.

(** Two renders settle any state. *)
Lemma two_renders_settle props s :
  boundsOrdered (minValue props) (maxValue props) ->
  dayCounted (visibleDuration props) ->
  updates props (render alignCenter props (render alignCenter props s)) = false.
Proof.
  intros Hord Hdur. apply render_settles.
  - assumption.
  - assumption.
  - apply render_current.
  - apply render_focus_valid. assumption.
Qed.

Lemma commit_settled fuel : forall props s s',
  commit alignCenter fuel props s = Some s' -> updates props s' = false.
Proof.
  induction fuel as [|fuel IH]; intros props s s'; simpl;
    destruct (updates props s) eqn:Hu; intros H;
    try discriminate; try (injection H as <-; assumption).
  eapply IH; eassumption.
Qed.

Lemma commit_settled_state fuel props s :
  updates props s = false -> commit alignCenter fuel props s = Some s.
Proof.
  intros H. destruct fuel; simpl; rewrite H; reflexivity.
Qed.

Lemma commit_total props s n :
  boundsOrdered (minValue props) (maxValue props) ->
  dayCounted (visibleDuration props) ->
  exists s', commit alignCenter (2 + n) props s = Some s'.
Proof.
  intros Hord Hdur.
  pose proof (two_renders_settle props s Hord Hdur) as H2.
  change (2 + n)%nat with (S (S n)).
  cbn [commit].
  destruct (updates props s); [|eauto].
  destruct (updates props (render alignCenter props s)); [|eauto].
  rewrite commit_settled_state by assumption. eauto.
Qed.

Lemma settled_inWindow props s :
  boundsOrdered (minValue props) (maxValue props) ->
  updates props s = false -> inWindow props s /\ inVisibleRange props s.
Proof.
  intros Hord H. apply updates_false in H; [|assumption].
  destruct H as (_ & _ & Hlt & Hge).
  unfold inWindow, inVisibleRange, visibleRange, endDate. cbn [fst snd].
  rewrite subtract_days_day. unfold compare in *. by_days.
Qed.

(** *** Realignment, render after render *)

Lemma setStartDate_same (s : HookState) : setStartDate (startDate s) s = s.
Proof. destruct s. reflexivity. Qed.

(** With the calendar identifier on record and a focused date within the
    bounds, all a render does is set the start of the window as the
    realignment tests say. *)
Lemma render_steady props s :
  calendarChanged props s = false ->
  isInvalid (focusedDate props s) (minValue props) (maxValue props) = false ->
  render alignCenter props s
  = setStartDate (realignedFrom props (focusedDate props s) (startDate s)) s.
Proof.
  intros Hc Hi. unfold render, realignedFrom. rewrite Hc, Hi.
  destruct (compare _ (startDate s) <? 0); [reflexivity|].
  destruct (compare _ (add _ _) >=? 0); [reflexivity|].
  symmetry. apply setStartDate_same.
Qed.

Lemma compare_same (d : CalendarDate) : (compare d d <? 0) = false.
Proof. unfold compare. rewrite Z.sub_diag. reflexivity. Qed.

(** A window realigned at the focused date itself stays there. *)
Lemma realignedFrom_focus props (focused : CalendarDate) :
  realignedFrom props focused focused = focused.
Proof.
  unfold realignedFrom. rewrite compare_same.
  destruct (compare _ _ >=? 0); reflexivity.
Qed.

(** What one round of realignment gives: the start it had, the focused
    date, or the start that puts the focused date at the end. *)
Lemma realignedFrom_cases props (focused start : CalendarDate) :
  let atEnd :=
    alignEnd focused (visibleDuration props) (locale props)
      (minValue props) (maxValue props) in
  ((compare focused start <? 0) = true
   /\ realignedFrom props focused start = atEnd)
  \/ ((compare focused start <? 0) = false
      /\ (compare focused (add start (visibleDuration props)) >=? 0) = true
      /\ realignedFrom props focused start = focused)
  \/ ((compare focused start <? 0) = false
      /\ (compare focused (add start (visibleDuration props)) >=? 0) = false
      /\ realignedFrom props focused start = start).
Proof.
  intros atEnd. subst atEnd. unfold realignedFrom, alignStart.
  destruct (compare focused start <? 0); [auto|].
  destruct (compare focused (add start (visibleDuration props)) >=? 0); auto.
Qed.

(** Realigning stops changing the start of the window after two rounds,
    whatever the duration is. *)
Lemma realignedFrom_thrice props (focused start : CalendarDate) :
  realignedFrom props focused
    (realignedFrom props focused (realignedFrom props focused start))
  = realignedFrom props focused (realignedFrom props focused start).
Proof.
  pose proof (realignedFrom_focus props focused) as Hfocus.
  destruct (realignedFrom_cases props focused start)
    as [[_ E]|[(_ & _ & E)|(_ & _ & E)]]; rewrite !E.
  - destruct (realignedFrom_cases props focused
                (alignEnd focused (visibleDuration props) (locale props)
                   (minValue props) (maxValue props)))
      as [[_ E']|[(_ & _ & E')|(_ & _ & E')]]; rewrite !E'.
    + reflexivity.
    + rewrite Hfocus. reflexivity.
    + reflexivity.
  - rewrite !Hfocus. reflexivity.
  - reflexivity.
Qed.

(** For a duration counted in weeks and days it stops after one round. *)
Lemma realignedFrom_twice props (focused start : CalendarDate) :
  years (visibleDuration props) = 0 ->
  months (visibleDuration props) = 0 ->
  realignedFrom props focused (realignedFrom props focused start)
  = realignedFrom props focused start.
Proof.
  intros Hy Hm.
  pose proof (realignedFrom_focus props focused) as Hfocus.
  destruct (realignedFrom_cases props focused start)
    as [[_ E]|[(_ & _ & E)|(_ & _ & E)]]; rewrite !E.
  - destruct (realignedFrom_cases props focused
                (alignEnd focused (visibleDuration props) (locale props)
                   (minValue props) (maxValue props)))
      as [[_ E']|[(_ & H2 & E')|(_ & _ & E')]].
    + exact E'.
    + exfalso. revert H2. unfold compare, alignEnd.
      rewrite add_dayCounted, subtract_dayCounted, add_days_day by assumption.
      by_days.
    + exact E'.
  - exact Hfocus.
  - reflexivity.
Qed.

(** For a duration that moves every date, the window contains the focused
    date after two rounds. *)
Lemma realignedFrom_covers props (focused start : CalendarDate) :
  advances (visibleDuration props) ->
  let start' :=
    realignedFrom props focused (realignedFrom props focused start) in
  (compare focused start' <? 0) = false
  /\ (compare focused (add start' (visibleDuration props)) >=? 0) = false.
Proof.
  intros Hadv start'. subst start'.
  assert (Hfocus :
    (compare focused focused <? 0) = false
    /\ (compare focused (add focused (visibleDuration props)) >=? 0) = false).
  { split; [apply compare_same|].
    destruct (Hadv focused) as [_ Hf]. unfold compare. by_days. }
  destruct (realignedFrom_cases props focused start)
    as [[_ E]|[(_ & _ & E)|(H1 & H2 & E)]]; rewrite !E.
  - destruct (realignedFrom_cases props focused
                (alignEnd focused (visibleDuration props) (locale props)
                   (minValue props) (maxValue props)))
      as [[H1 _]|[(_ & _ & E')|(H1 & H2 & E')]]; try rewrite !E'.
    + exfalso. revert H1. unfold alignEnd, compare.
      destruct (Hadv (add focused (ofDays 1))) as [Hb _].
      rewrite add_days_day in Hb. by_days.
    + exact Hfocus.
    + auto.
  - rewrite realignedFrom_focus. exact Hfocus.
  - auto.
Qed.

(** Two renders from a state with the calendar identifier on record and a
    focused date within the bounds, written out. *)
Lemma render_steady_twice props s :
  calendarChanged props s = false ->
  isInvalid (focusedDate props s) (minValue props) (maxValue props) = false ->
  render alignCenter props (render alignCenter props s)
  = setStartDate
      (realignedFrom props (focusedDate props s)
         (realignedFrom props (focusedDate props s) (startDate s))) s.
Proof.
  intros Hc Hi. rewrite (render_steady props s Hc Hi).
  rewrite render_steady; [reflexivity | exact Hc | exact Hi].
Qed.

Lemma render_steady_thrice props s :
  calendarChanged props s = false ->
  isInvalid (focusedDate props s) (minValue props) (maxValue props) = false ->
  render alignCenter props
    (render alignCenter props (render alignCenter props s))
  = render alignCenter props (render alignCenter props s).
Proof.
  intros Hc Hi. rewrite (render_steady_twice props s Hc Hi).
  rewrite render_steady; [|exact Hc|exact Hi].
  change (focusedDate props (setStartDate ?d s)) with (focusedDate props s).
  cbn [setStartDate startDate].
  rewrite realignedFrom_thrice. reflexivity.
Qed.

Lemma render_steady_idempotent props s :
  years (visibleDuration props) = 0 ->
  months (visibleDuration props) = 0 ->
  calendarChanged props s = false ->
  isInvalid (focusedDate props s) (minValue props) (maxValue props) = false ->
  render alignCenter props (render alignCenter props s)
  = render alignCenter props s.
Proof.
  intros Hy Hm Hc Hi. rewrite (render_steady_twice props s Hc Hi).
  rewrite (render_steady props s Hc Hi).
  rewrite realignedFrom_twice by assumption. reflexivity.
Qed.

(** Two renders from such a state leave nothing to update, when the
    duration moves every date. *)
Lemma render_steady_settles props s :
  boundsOrdered (minValue props) (maxValue props) ->
  advances (visibleDuration props) ->
  calendarChanged props s = false ->
  isInvalid (focusedDate props s) (minValue props) (maxValue props) = false ->
  updates props (render alignCenter props (render alignCenter props s)) = false.
Proof.
  intros Hord Hadv Hc Hi.
  rewrite (render_steady_twice props s Hc Hi).
  apply updates_false; [assumption|].
  change (focusedDate props (setStartDate ?d s)) with (focusedDate props s).
  cbn [setStartDate startDate].
  destruct (realignedFrom_covers props (focusedDate props s) (startDate s) Hadv)
    as [H1 H2].
  repeat split; assumption.
Qed.

Lemma three_renders_settle props s :
  boundsOrdered (minValue props) (maxValue props) ->
  advances (visibleDuration props) ->
  updates props
    (render alignCenter props
       (render alignCenter props (render alignCenter props s))) = false.
Proof.
  intros Hord Hadv. apply render_steady_settles; try assumption.
  - apply render_current.
  - apply render_focus_valid. assumption.
Qed.

(** The committed state is the first of the successive renders that has
    nothing to update. *)
Lemma commit_first_settled fuel : forall props s,
  commit alignCenter (S fuel) props s
  = if updates props s then commit alignCenter fuel props (render alignCenter props s)
    else Some s.
Proof. intros props s. reflexivity. Qed.

Lemma commit_within_two props s n :
  updates props (render alignCenter props (render alignCenter props s)) = false ->
  commit alignCenter (2 + n) props s = Some s
  \/ commit alignCenter (2 + n) props s = Some (render alignCenter props s)
  \/ commit alignCenter (2 + n) props s
     = Some (render alignCenter props (render alignCenter props s)).
Proof.
  intros H. change (2 + n)%nat with (S (S n)).
  rewrite !commit_first_settled.
  destruct (updates props s); [|auto].
  destruct (updates props (render alignCenter props s)); [|auto].
  rewrite commit_settled_state by assumption. auto.
Qed.

Lemma commit_within_three props s n :
  updates props
    (render alignCenter props
       (render alignCenter props (render alignCenter props s))) = false ->
  exists s', commit alignCenter (3 + n) props s = Some s'.
Proof.
  intros H. change (3 + n)%nat with (S (2 + n)).
  rewrite commit_first_settled.
  destruct (updates props s); [|eauto].
  destruct (commit_within_two props (render alignCenter props s) n H)
    as [E|[E|E]]; rewrite E; eauto.
Qed.

(** A duration counted in weeks and days, at least one day long, moves
    every date. *)
Lemma dayCounted_advances (dur : DateDuration) :
  dayCounted dur -> advances dur.
Proof.
  intros (Hy & Hm & Hpos) d.
  rewrite add_dayCounted, subtract_dayCounted by assumption. lia.
Qed.

(** C2.  With the bounds in order and a visible duration that moves every
    date (later when added, earlier when subtracted), the renders that
    follow any state commit, within three of them, a state in which the
    focused date is inside the visible window,
    [startDate <= focusedDate < startDate + visibleDuration], and inside
    the visible range, both ends included.  After an operation that left
    the focused date within the bounds this takes at most two renders and
    the focused date stays where the operation put it. *)
Theorem visible_window_contains_focus :
  forall (props : CalendarStateOptions) (s : HookState),
    boundsOrdered (minValue props) (maxValue props) ->
    advances (visibleDuration props) ->
    (forall n, exists s',
        commit alignCenter (3 + n) props s = Some s'
        /\ inWindow props s' /\ inVisibleRange props s')
    /\ (calendarChanged props s = false ->
        isInvalid (focusedDate props s) (minValue props) (maxValue props)
        = false ->
        forall n, exists s',
          commit alignCenter (2 + n) props s = Some s'
          /\ focusedDate props s' = focusedDate props s
          /\ inWindow props s' /\ inVisibleRange props s').
Proof.
  intros props s Hord Hadv. split.
  - intros n.
    destruct (commit_within_three props s n
                (three_renders_settle props s Hord Hadv)) as [s' Hs'].
    exists s'. split; [assumption|].
    apply settled_inWindow; [assumption|].
    eapply commit_settled; eassumption.
  - intros Hc Hi n.
    pose proof (render_steady_settles props s Hord Hadv Hc Hi) as Hset.
    assert (Hsame : forall s',
              commit alignCenter (2 + n) props s = Some s' ->
              focusedDate props s' = focusedDate props s).
    { intros s' Hs'.
      destruct (commit_within_two props s n Hset) as [E|[E|E]];
        rewrite E in Hs'; injection Hs' as <-.
      - reflexivity.
      - rewrite (render_steady props s Hc Hi). reflexivity.
      - rewrite (render_steady_twice props s Hc Hi). reflexivity. }
    destruct (commit_within_two props s n Hset) as [E|[E|E]];
      eexists; (split; [exact E|]);
      (split; [apply Hsame; exact E|]);
      apply settled_inWindow; try assumption;
      eapply commit_settled; exact E.
Qed.

(** *** The visible range *)

Lemma range_spans props s : rangeSpansDuration props s.
Proof.
  unfold rangeSpansDuration, visibleRange, endDate. cbn [fst snd].
  split; [reflexivity|]. split.
  - rewrite add_days_day, subtract_days_day. lia.
  - intros Hy Hm.
    rewrite subtract_days_day, add_dayCounted by assumption. lia.
Qed.

(** C3.  In every state the end of the visible range is its start plus the
    visible duration minus one day, so that the range is exactly the
    visible duration long; this holds in particular in the states
    [focusNextPage] and [focusPreviousPage] lead to. *)
Theorem visible_range_spans_duration :
  forall (props : CalendarStateOptions) (seen s : HookState),
    rangeSpansDuration props s
    /\ rangeSpansDuration props (focusNextPage constrainStart props seen s)
    /\ rangeSpansDuration props
         (focusPreviousPage constrainStart props seen s).
Proof.
  intros props seen s. split; [|split]; apply range_spans.
Qed.

(** *** Selection *)

Lemma setValue_emits props seen s date :
  isDisabled props = false -> isReadOnly props = false ->
  emitsSelection props seen s date (setValue props seen date s).
Proof.
  intros Hd Hr. unfold setValue, emitsSelection, emittedCalendar.
  rewrite Hd, Hr. cbn [negb andb].
  destruct (value props seen) as [orig|] eqn:Hv.
  - destruct (hasHour orig) eqn:Hh.
    + exists (set orig (toCalendar date (calendarOf (dateOf orig)))).
      split; [reflexivity|].
      unfold setControlledValue, set.
      cbn [notified valueState dateOf timeOf zoneOf].
      split; [reflexivity|].
      split; [intros ->; reflexivity|].
      split; [reflexivity|].
      split; [apply toCalendar_identifier|].
      split; [apply toCalendar_day|].
      split.
      * intros o Ho _. injection Ho as <-. split; reflexivity.
      * intros Hno. specialize (Hno orig eq_refl). congruence.
    + exists (plainDate (toCalendar date (calendarOf (dateOf orig)))).
      split; [reflexivity|].
      unfold setControlledValue, plainDate.
      cbn [notified valueState dateOf timeOf zoneOf].
      split; [reflexivity|].
      split; [intros ->; reflexivity|].
      split; [reflexivity|].
      split; [apply toCalendar_identifier|].
      split; [apply toCalendar_day|].
      split.
      * intros o Ho Hho. injection Ho as <-. congruence.
      * reflexivity.
  - exists (plainDate (toCalendar date GregorianCalendar)).
    split; [reflexivity|].
    unfold setControlledValue, plainDate.
    cbn [notified valueState dateOf timeOf zoneOf].
    split; [reflexivity|].
    split; [intros ->; reflexivity|].
    split; [reflexivity|].
    split; [apply toCalendar_identifier|].
    split; [apply toCalendar_day|].
    split.
    + intros o Ho. discriminate Ho.
    + reflexivity.
Qed.

(** C5.  When the calendar is neither disabled nor read-only, [selectDate]
    and [selectFocusedDate] emit the selected date converted to the
    calendar system of the original value, Gregorian when there is no
    original value; when the original value has a time of day, the emitted
    value keeps that time of day and the time zone and only its date is
    replaced. *)
Theorem selection_emits_in_value_calendar :
  forall (props : CalendarStateOptions) (seen s : HookState)
         (date : CalendarDate),
    isDisabled props = false -> isReadOnly props = false ->
    emitsSelection props seen s date (selectDate props seen date s)
    /\ emitsSelection props seen s (focusedDate props seen)
         (selectFocusedDate props seen s)
    /\ (value props seen = None ->
        emittedCalendar props seen = GregorianCalendar)
    /\ (forall orig, value props seen = Some orig ->
        emittedCalendar props seen = calendarOf (dateOf orig)).
Proof.
  intros props seen s date Hd Hr. split; [|split; [|split]].
  - apply setValue_emits; assumption.
  - apply setValue_emits; assumption.
  - unfold emittedCalendar. intros ->. reflexivity.
  - unfold emittedCalendar. intros orig ->. reflexivity.
Qed.

(** C9.  When the calendar is disabled or read-only, [setValue], and with
    it [selectDate] and [selectFocusedDate], leaves the whole state as it
    is: no value is stored and no change is emitted. *)
Theorem selection_blocked_when_disabled_or_read_only :
  forall (props : CalendarStateOptions) (seen s : HookState)
         (date : CalendarDate),
    isDisabled props || isReadOnly props = true ->
    setValue props seen date s = s
    /\ selectDate props seen date s = s
    /\ selectFocusedDate props seen s = s.
Proof.
  intros props seen s date H.
  assert (Hg : negb (isDisabled props) && negb (isReadOnly props) = false).
  { destruct (isDisabled props), (isReadOnly props);
      try reflexivity; discriminate H. }
  unfold selectDate, selectFocusedDate, setValue. rewrite Hg. auto.
Qed.

(** *** Cells outside the visible range *)

(** C10.  A date strictly before the start or strictly after the end of
    the visible range is a disabled cell, whatever the bounds and the
    disabled flag are, and is therefore never selected, whatever the
    selected value is. *)
Theorem cell_outside_visible_range_disabled :
  forall (props : CalendarStateOptions) (seen : HookState)
         (date : CalendarDate),
    compare date (fst (visibleRange props seen)) < 0
    \/ compare date (snd (visibleRange props seen)) > 0 ->
    isCellDisabled props seen date = true
    /\ isSelected props seen date = false.
Proof.
  intros props seen date H.
  assert (Hdis : isCellDisabled props seen date = true).
  { unfold isCellDisabled. cbn [visibleRange fst snd] in H.
    destruct H as [H|H].
    - assert (E : (compare date (startDate seen) <? 0) = true)
        by (apply Z.ltb_lt; assumption).
      rewrite E. rewrite !orb_true_r. reflexivity.
    - assert (E : (compare date (endDate props seen) >? 0) = true)
        by (rewrite Z.gtb_ltb; apply Z.ltb_lt; lia).
      rewrite E. rewrite !orb_true_r. reflexivity. }
  split; [assumption|].
  unfold isSelected. rewrite Hdis.
  destruct (calendarDateValue props seen); [|reflexivity].
  cbn [negb]. rewrite andb_false_r. reflexivity.
Qed.

(** *** Calendar switch and realignment *)

(** When a render finds a calendar identifier other than the one on record,
    and a focused date within the bounds, it focuses the focused date
    converted to the new calendar system, a date of that system denoting
    the same absolute day, and puts the new identifier on record; when the
    focused date is also inside the visible window, it restarts the window
    at [alignCenter] of the converted date. *)
Lemma calendar_switch_recenters :
  forall (props : CalendarStateOptions) (s : HookState),
    calendarChanged props s = true ->
    isInvalid (focusedDate props s) (minValue props) (maxValue props) = false ->
    let newFocusedDate := toCalendar (focusedDate props s) (calendar props) in
    let s' := render alignCenter props s in
    notified s' = onFocusChange newFocusedDate :: notified s
    /\ (focusedValue props = None -> focusedDate props s' = newFocusedDate)
    /\ lastCalendarIdentifier s' = identifier (calendar props)
    /\ identifier (calendarOf newFocusedDate) = identifier (calendar props)
    /\ toJulianDay newFocusedDate = toJulianDay (focusedDate props s)
    /\ (inWindow props s ->
        startDate s'
        = alignCenter newFocusedDate (visibleDuration props) (locale props)
            (minValue props) (maxValue props)).
Proof.
  intros props s Hc Hi newFocusedDate s'. subst s' newFocusedDate.
  split; [|split; [|split; [|split; [|split]]]].
  - unfold render. rewrite Hc, Hi.
    destruct (compare _ (startDate s) <? 0);
      [|destruct (compare _ (add _ _) >=? 0)]; reflexivity.
  - intros Hfv. unfold render. rewrite Hc, Hi.
    destruct (compare _ (startDate s) <? 0);
      [|destruct (compare _ (add _ _) >=? 0)];
      open_state; rewrite Hfv; reflexivity.
  - unfold render. rewrite Hc, Hi.
    destruct (compare _ (startDate s) <? 0);
      [|destruct (compare _ (add _ _) >=? 0)]; reflexivity.
  - apply toCalendar_identifier.
  - apply toCalendar_day.
  - intros [Hlo Hhi].
    assert (Hlt : (compare (focusedDate props s) (startDate s) <? 0) = false)
      by (unfold compare; by_days).
    assert (Hge : (compare (focusedDate props s)
                     (add (startDate s) (visibleDuration props)) >=? 0)
                  = false)
      by (unfold compare; by_days).
    unfold render. rewrite Hc, Hi, Hlt, Hge. reflexivity.
Qed.

(** C7.  A render that finds the focused date within the bounds and before
    the start of the visible window sets the start of the window to
    [alignEnd] of the focused date, which puts the focused date on the last
    day of the window; one that finds it at or after the start plus the
    visible duration sets the start to [alignStart] of the focused date,
    which is the focused date itself. *)
Theorem render_realigns_window :
  forall (props : CalendarStateOptions) (s : HookState),
    isInvalid (focusedDate props s) (minValue props) (maxValue props) = false ->
    let focused := focusedDate props s in
    let atEndOf :=
      alignEnd focused (visibleDuration props) (locale props)
        (minValue props) (maxValue props) in
    let atStartOf :=
      alignStart focused (visibleDuration props) (locale props)
        (minValue props) (maxValue props) in
    (compare focused (startDate s) < 0 ->
     startDate (render alignCenter props s) = atEndOf)
    /\ (compare focused (startDate s) >= 0 ->
        compare focused (add (startDate s) (visibleDuration props)) >= 0 ->
        startDate (render alignCenter props s) = atStartOf)
    /\ (toJulianDay (startDate s)
          <= toJulianDay (add (startDate s) (visibleDuration props)) ->
        compare focused (add (startDate s) (visibleDuration props)) >= 0 ->
        startDate (render alignCenter props s) = atStartOf)
    /\ atStartOf = focused
    /\ (years (visibleDuration props) = 0 ->
        months (visibleDuration props) = 0 ->
        toJulianDay
          (subtract (add atEndOf (visibleDuration props)) (ofDays 1))
        = toJulianDay focused).
Proof.
  intros props s Hi focused atEndOf atStartOf.
  subst focused atEndOf atStartOf.
  assert (Hstart :
    compare (focusedDate props s) (startDate s) >= 0 ->
    compare (focusedDate props s)
      (add (startDate s) (visibleDuration props)) >= 0 ->
    startDate (render alignCenter props s)
    = alignStart (focusedDate props s) (visibleDuration props) (locale props)
        (minValue props) (maxValue props)).
  { intros H1 H2. unfold render. rewrite Hi.
    assert (E1 : (compare (focusedDate props s) (startDate s) <? 0) = false)
      by (apply Z.ltb_ge; lia).
    assert (E2 : (compare (focusedDate props s)
                    (add (startDate s) (visibleDuration props)) >=? 0) = true)
      by (rewrite Z.geb_leb; apply Z.leb_le; lia).
    rewrite E1, E2. reflexivity. }
  split; [|split; [|split; [|split]]].
  - intros H. unfold render. rewrite Hi.
    assert (E : (compare (focusedDate props s) (startDate s) <? 0) = true)
      by (apply Z.ltb_lt; assumption).
    rewrite E. reflexivity.
  - exact Hstart.
  - intros Hwin H2. apply Hstart; [|assumption].
    unfold compare in *. lia.
  - reflexivity.
  - intros Hy Hm. unfold alignEnd.
    rewrite subtract_days_day, add_dayCounted, subtract_dayCounted,
      add_days_day by assumption.
    lia.
Qed.

(** *** Repeated renders *)

(** C8, as amended.  A render performs at most one of the two repairs, so
    one render is not always enough and the step is not idempotent.  It
    changes nothing in a state whose calendar identifier is the one on
    record and whose focused date is within the bounds and inside the
    visible window.  With the bounds in order, the state stops changing
    after at most three renders from any state, and after at most two when
    the visible duration has no years and no months. *)
Theorem renders_reach_fixed_point :
  forall (props : CalendarStateOptions) (s : HookState),
    let r := render alignCenter props in
    (calendarChanged props s = false ->
     isInvalid (focusedDate props s) (minValue props) (maxValue props)
     = false ->
     inWindow props s ->
     r s = s)
    /\ (boundsOrdered (minValue props) (maxValue props) ->
        r (r (r (r s))) = r (r (r s))
        /\ (years (visibleDuration props) = 0 ->
            months (visibleDuration props) = 0 ->
            r (r (r s)) = r (r s))).
Proof.
  intros props s r. subst r. split.
  - intros Hc Hi [Hlo Hhi].
    rewrite (render_steady props s Hc Hi).
    unfold realignedFrom.
    assert (Hlt : (compare (focusedDate props s) (startDate s) <? 0) = false)
      by (unfold compare; by_days).
    assert (Hge : (compare (focusedDate props s)
                     (add (startDate s) (visibleDuration props)) >=? 0)
                  = false)
      by (unfold compare; by_days).
    rewrite Hlt, Hge. apply setStartDate_same.
  - intros Hord.
    pose proof (render_current props s) as Hc1.
    pose proof (render_focus_valid props s Hord) as Hi1.
    split.
    + apply render_steady_thrice; assumption.
    + intros Hy Hm. apply render_steady_idempotent; assumption.
Qed.

(** *** Clamping *)

Lemma constrainValue_below (d : CalendarDate) (mn mx : option DateValue) m :
  boundsOrdered mn mx -> mn = Some m ->
  toJulianDay d < toJulianDay (dateOf m) ->
  constrainValue d mn mx = dateOf m.
Proof.
  intros Hord -> Hlt.
  unfold constrainValue, maxDate, minDate, compare, toCalendarDate.
  unfold boundsOrdered in Hord. destruct mx as [b|]; by_days.
Qed.

Lemma constrainValue_above (d : CalendarDate) (mn mx : option DateValue) m :
  mx = Some m ->
  toJulianDay (dateOf m) < toJulianDay d ->
  constrainValue d mn mx = dateOf m.
Proof.
  intros -> Hlt.
  unfold constrainValue, maxDate, minDate, compare, toCalendarDate.
  destruct mn as [a|]; by_days.
Qed.



End HookFacts.

(** ** Further properties of the hook *)

Section MoreHookFacts.
Context {L : DateLibrary}.
Variable alignCenter :
  CalendarDate -> DateDuration -> string ->
  option DateValue -> option DateValue -> CalendarDate.
Variable constrainStart :
  CalendarDate -> CalendarDate -> DateDuration -> string ->
  option DateValue -> option DateValue -> CalendarDate.

(** *** What operations and renders leave alone *)

(** Unfolds the operations down to the state setters and splits on every
    test they make. *)
Ltac open_operation :=
  repeat first
    [ progress
        unfold perform, setFocusedDate, focusNextDay, focusPreviousDay,
          focusNextRow, focusPreviousRow, focusNextPage, focusPreviousPage,
          focusPageStart, focusPageEnd, focusNextSection,
          focusPreviousSection, selectFocusedDate, selectDate, focusCell,
          setValue
    | match goal with
      | |- context [if ?b then _ else _] => destruct b
      | |- context [match value ?p ?s with _ => _ end] => destruct (value p s)
      end ];
  unfold setControlledValue, setFocusedDateState, setStartDate, setFocused;
  cbn [valueState focusedState startDate isFocused lastCalendarIdentifier
       notified].

Ltac keep_notifications :=
  repeat match goal with
  | |- forall _, _ => intro
  | H : In _ (_ :: _) |- _ => destruct H as [H|H]; [discriminate H|]
  end;
  try assumption.

(** X1.  An operation that selects leaves the focused date, the start of
    the window and the focus flag alone and reports no focus change; every
    other operation leaves the selected value alone and reports no change
    of value.  No operation touches the calendar identifier on record. *)
Theorem operations_keep_to_their_state :
  forall (props : CalendarStateOptions) (seen s : HookState) (a : Action),
    let s' := perform constrainStart props seen a s in
    lastCalendarIdentifier s' = lastCalendarIdentifier s
    /\ (selects a = true ->
        focusedState s' = focusedState s
        /\ startDate s' = startDate s
        /\ isFocused s' = isFocused s
        /\ forall d, In (onFocusChange d) (notified s') ->
                     In (onFocusChange d) (notified s))
    /\ (selects a = false ->
        valueState s' = valueState s
        /\ forall v, In (onChange v) (notified s') ->
                     In (onChange v) (notified s)).
Proof.
  intros props seen s a s'. subst s'.
  split; [|split].
  - destruct a; open_operation; reflexivity.
  - intros Hsel. destruct a; try discriminate Hsel;
      open_operation; repeat split; keep_notifications.
  - intros Hsel. destruct a; try discriminate Hsel;
      open_operation; repeat split; keep_notifications.
Qed.

(** X2.  A render never changes the selected value or the focus flag and
    never reports a change of value.  When the calendar identifier is the
    one on record and the focused date is within the bounds, the start of
    the window is all it can change: nothing is reported and the focused
    date stays. *)
Theorem render_changes_window_only :
  forall (props : CalendarStateOptions) (s : HookState),
    let s' := render alignCenter props s in
    valueState s' = valueState s
    /\ isFocused s' = isFocused s
    /\ (forall v, In (onChange v) (notified s') -> In (onChange v) (notified s))
    /\ (calendarChanged props s = false ->
        isInvalid (focusedDate props s) (minValue props) (maxValue props)
        = false ->
        focusedState s' = focusedState s
        /\ lastCalendarIdentifier s' = lastCalendarIdentifier s
        /\ notified s' = notified s
        /\ focusedDate props s' = focusedDate props s).
Proof.
  intros props s s'. subst s'. unfold render.
  split; [|split; [|split]].
  - destruct (calendarChanged props s), (isInvalid _ _ _);
      try destruct (compare _ (startDate s) <? 0);
      try destruct (compare _ (add _ _) >=? 0); reflexivity.
  - destruct (calendarChanged props s), (isInvalid _ _ _);
      try destruct (compare _ (startDate s) <? 0);
      try destruct (compare _ (add _ _) >=? 0); reflexivity.
  - destruct (calendarChanged props s), (isInvalid _ _ _);
      try destruct (compare _ (startDate s) <? 0);
      try destruct (compare _ (add _ _) >=? 0);
      unfold setControlledValue, setFocusedDateState, setStartDate,
        setLastCalendarIdentifier;
      cbn [notified]; keep_notifications.
  - intros Hc Hi. rewrite Hc, Hi.
    destruct (compare _ (startDate s) <? 0);
      try destruct (compare _ (add _ _) >=? 0); repeat split.
Qed.

(** X3.  When the visible duration has no days field, only the two page
    operations set the start of the window; every other operation leaves
    it to the next render.  When the visible duration has no field at all,
    row and section navigation do nothing. *)
Theorem window_start_set_by_paging_only :
  forall (props : CalendarStateOptions) (seen s : HookState) (a : Action),
    (truthy (days (visibleDuration props)) = false ->
     turnsPage a = false ->
     startDate (perform constrainStart props seen a s) = startDate s)
    /\ (emptyDuration (visibleDuration props) = true ->
        movesByRowOrSection a = true ->
        perform constrainStart props seen a s = s).
Proof.
  intros props seen s a. split.
  - intros Hd Hp.
    destruct a; try discriminate Hp;
      unfold perform, focusNextRow, focusPreviousRow, focusNextSection,
        focusPreviousSection; rewrite ?Hd;
      open_operation; reflexivity.
  - unfold emptyDuration. intros He Hm.
    apply andb_prop in He. destruct He as [He Hy].
    apply andb_prop in He. destruct He as [He Hmo].
    apply andb_prop in He. destruct He as [Hd Hw].
    apply negb_true_iff in Hd, Hw, Hmo, Hy.
    destruct a; try discriminate Hm;
      unfold perform, focusNextRow, focusPreviousRow, focusNextSection,
        focusPreviousSection;
      rewrite Hd, Hw, Hmo, Hy; reflexivity.
Qed.

(** X4.  The operations of one state object read the values of the render
    that made it, not the state they update: calling an operation twice
    leaves the state cells as calling it once does (only the notification
    is repeated). *)
Theorem operation_twice_as_once :
  forall (props : CalendarStateOptions) (seen s : HookState) (a : Action),
    cells (perform constrainStart props seen a
             (perform constrainStart props seen a s))
    = cells (perform constrainStart props seen a s).
Proof.
  intros props seen s a. unfold cells.
  destruct a; open_operation; try reflexivity;
    destruct (focusedValue props); try destruct (valueOption props);
    reflexivity.
Qed.

(** *** Selecting and focusing, then asking *)

Lemma isCellDisabled_false props s d :
  isCellDisabled props s d = false <->
  isDisabled props = false
  /\ toJulianDay (startDate s) <= toJulianDay d
  /\ toJulianDay d <= toJulianDay (endDate props s)
  /\ isInvalid d (minValue props) (maxValue props) = false.
Proof.
  unfold isCellDisabled, isInvalidDate, compare.
  rewrite !orb_false_iff. split.
  - intros [[[Hd Hlo] Hhi] Hi]. repeat split; try assumption; by_days.
  - intros (Hd & Hlo & Hhi & Hi). repeat split; try assumption; by_days.
Qed.

(** X5.  When the value is not controlled and the calendar is not
    read-only, selecting the date of a cell that is neither disabled nor
    unavailable makes that cell the selected one: [isSelected] holds of it
    afterwards, and only of dates of the same day. *)
Theorem selected_date_is_selected :
  forall (props : CalendarStateOptions) (seen s : HookState)
         (date : CalendarDate),
    valueOption props = None ->
    isReadOnly props = false ->
    isCellDisabled props s date = false ->
    isCellUnavailable props date = false ->
    let s' := selectDate props seen date s in
    isSelected props s' date = true
    /\ (forall d, isSelected props s' d = true ->
                  toJulianDay d = toJulianDay date).
Proof.
  intros props seen s date Hv Hr Hdis Hun s'.
  pose proof Hdis as Hen. apply isCellDisabled_false in Hen.
  destruct Hen as (Hd & _).
  destruct (setValue_emits props seen s date Hd Hr)
    as (v & Hs' & _ & _ & _ & _ & Hday & _).
  fold (selectDate props seen date s) in Hs'. fold s' in Hs'.
  assert (Hval : calendarDateValue props s'
                 = Some (toCalendar (dateOf v) (calendar props))).
  { rewrite Hs'.
    unfold calendarDateValue, value, useControlledState, setControlledValue.
    rewrite Hv. reflexivity. }
  assert (Hsame : forall d, isCellDisabled props s' d = isCellDisabled props s d).
  { intros d. rewrite Hs'. reflexivity. }
  split.
  - unfold isSelected. rewrite Hval, Hsame, Hdis, Hun.
    unfold isSameDay. rewrite toCalendar_day, Hday, Z.eqb_refl. reflexivity.
  - intros d. unfold isSelected. rewrite Hval.
    intros H. apply andb_prop in H. destruct H as [H _].
    apply andb_prop in H. destruct H as [H _].
    unfold isSameDay in H. rewrite toCalendar_day, Hday in H.
    apply Z.eqb_eq. exact H.
Qed.

(** X6.  When the focused date is not controlled, [setFocusedDate] makes
    the date it was given, clamped to the bounds, the focused date and sets
    the focus flag, so that [isCellFocused] holds of the clamped date (of
    the date itself when it is within the bounds); after [setFocused] with
    false no cell is focused. *)
Theorem focused_date_is_focused :
  forall (props : CalendarStateOptions) (s : HookState) (date : CalendarDate),
    focusedValue props = None ->
    let s' := setFocusedDate props date s in
    let clamped := constrainValue date (minValue props) (maxValue props) in
    focusedDate props s' = clamped
    /\ isFocused s' = true
    /\ isCellFocused props s' clamped = true
    /\ (isInvalid date (minValue props) (maxValue props) = false ->
        isCellFocused props s' date = true)
    /\ (forall d, isCellFocused props (setFocused false s') d = false).
Proof.
  intros props s date Hfv s' clamped.
  assert (Hf : focusedDate props s' = clamped).
  { subst s' clamped.
    unfold focusedDate, focusedCalendarDate, useControlledState,
      setFocusedDate, focusCell, setFocusedDateState, setFocused.
    rewrite Hfv. reflexivity. }
  split; [exact Hf|]. split; [reflexivity|]. split; [|split].
  - unfold isCellFocused. rewrite Hf. unfold isSameDay.
    rewrite Z.eqb_refl. reflexivity.
  - intros Hi. unfold isCellFocused. rewrite Hf. subst clamped.
    rewrite constrainValue_fixes_valid by assumption.
    unfold isSameDay. rewrite Z.eqb_refl. reflexivity.
  - intros d. reflexivity.
Qed.

(** *** Moving by a day *)

(** X7.  When the focused date is not controlled and both it and the next
    day are within the bounds, moving to the next day, rendering, and
    moving to the previous day brings the focus back to the day it was on;
    likewise for the previous day first. *)
Theorem next_day_and_previous_day_cancel :
  forall (props : CalendarStateOptions) (s : HookState),
    focusedValue props = None ->
    isInvalid (focusedDate props s) (minValue props) (maxValue props) = false ->
    let rendered :=
      {| renderedProps := props; renderedState := s; current := s |} in
    (isInvalid (add (focusedDate props s) (ofDays 1))
       (minValue props) (maxValue props) = false ->
     toJulianDay
       (focusedDate props
          (current
             (run alignCenter constrainStart
                [Calling FocusNextDay; Rendering props;
                 Calling FocusPreviousDay] rendered)))
     = toJulianDay (focusedDate props s))
    /\ (isInvalid (subtract (focusedDate props s) (ofDays 1))
          (minValue props) (maxValue props) = false ->
        toJulianDay
          (focusedDate props
             (current
                (run alignCenter constrainStart
                   [Calling FocusPreviousDay; Rendering props;
                    Calling FocusNextDay] rendered)))
        = toJulianDay (focusedDate props s)).
Proof.
  intros props s Hfv Hi rendered. subst rendered.
  assert (Hset : forall d x,
            focusedDate props (focusCell props d x)
            = constrainValue d (minValue props) (maxValue props)).
  { intros d x.
    unfold focusedDate, focusedCalendarDate, useControlledState, focusCell,
      setFocusedDateState.
    rewrite Hfv. reflexivity. }
  split; intros Hstep;
    unfold run; cbn [fold_left step perform renderedProps renderedState current];
    unfold focusNextDay, focusPreviousDay;
    rewrite !Hset;
    rewrite (constrainValue_fixes_valid _ _ _ Hstep).
  - rewrite constrainValue_fixes_valid.
    + rewrite subtract_days_day, add_days_day. lia.
    + rewrite (isInvalid_same_day _ (focusedDate props s)); [assumption|].
      rewrite subtract_days_day, add_days_day. lia.
  - rewrite constrainValue_fixes_valid.
    + rewrite add_days_day, subtract_days_day. lia.
    + rewrite (isInvalid_same_day _ (focusedDate props s)); [assumption|].
      rewrite add_days_day, subtract_days_day. lia.
Qed.

(** X8.  With the bounds in order and the focused date not controlled,
    moving to the next day from the day of the upper bound leaves the focus
    on the upper bound, and moving to the previous day from the day of the
    lower bound leaves it on the lower bound. *)
Theorem day_navigation_stops_at_bounds :
  forall (props : CalendarStateOptions) (seen s : HookState),
    boundsOrdered (minValue props) (maxValue props) ->
    focusedValue props = None ->
    (forall mx, maxValue props = Some mx ->
       toJulianDay (focusedDate props seen) = toJulianDay (dateOf mx) ->
       focusedDate props (focusNextDay props seen s) = dateOf mx)
    /\ (forall mn, minValue props = Some mn ->
          toJulianDay (focusedDate props seen) = toJulianDay (dateOf mn) ->
          focusedDate props (focusPreviousDay props seen s) = dateOf mn).
Proof.
  intros props seen s Hord Hfv.
  assert (Hset : forall d x,
            focusedDate props (focusCell props d x)
            = constrainValue d (minValue props) (maxValue props)).
  { intros d x.
    unfold focusedDate, focusedCalendarDate, useControlledState, focusCell,
      setFocusedDateState.
    rewrite Hfv. reflexivity. }
  split.
  - intros mx Hmx Hday. unfold focusNextDay. rewrite Hset.
    apply constrainValue_above; [assumption|].
    rewrite add_days_day. lia.
  - intros mn Hmn Hday. unfold focusPreviousDay. rewrite Hset.
    apply constrainValue_below; [assumption | assumption |].
    rewrite subtract_days_day. lia.
Qed.

(** *** Cells *)

(** X9.  A selected cell is on the day of the value, in a calendar that is
    not disabled, inside the visible range, within the bounds and not
    unavailable. *)
Theorem selected_cell_is_enabled_day_of_value :
  forall (props : CalendarStateOptions) (s : HookState) (d : CalendarDate),
    isSelected props s d = true ->
    exists v,
      value props s = Some v
      /\ toJulianDay d = toJulianDay (dateOf v)
      /\ isDisabled props = false
      /\ toJulianDay (fst (visibleRange props s)) <= toJulianDay d
      /\ toJulianDay d <= toJulianDay (snd (visibleRange props s))
      /\ isInvalid d (minValue props) (maxValue props) = false
      /\ isCellUnavailable props d = false.
Proof.
  intros props s d. unfold isSelected, calendarDateValue, calendarDateValueOf.
  destruct (value props s) as [v|]; [|discriminate].
  intros H.
  apply andb_prop in H. destruct H as [H Hun].
  apply andb_prop in H. destruct H as [Hday Hdis].
  apply negb_true_iff in Hun, Hdis.
  apply isCellDisabled_false in Hdis. destruct Hdis as (Hd & Hlo & Hhi & Hi).
  unfold isSameDay, toCalendarDate in Hday. rewrite toCalendar_day in Hday.
  apply Z.eqb_eq in Hday.
  exists v. cbn [visibleRange fst snd]. repeat split; assumption.
Qed.

(** X10.  With the bounds in order, in the state a render is committed in,
    the cell of the focused date is disabled only if the whole calendar is,
    and it is the focused cell exactly when the calendar has the focus. *)
Theorem committed_focus_is_an_enabled_cell :
  forall (props : CalendarStateOptions) (s : HookState),
    boundsOrdered (minValue props) (maxValue props) ->
    updates props s = false ->
    isCellDisabled props s (focusedDate props s) = isDisabled props
    /\ isCellFocused props s (focusedDate props s) = isFocused s.
Proof.
  intros props s Hord Hu.
  pose proof (settled_inWindow props s Hord Hu) as [_ [Hlo Hhi]].
  apply (updates_false props s Hord) in Hu.
  destruct Hu as (_ & Hi & _ & _).
  cbn [visibleRange fst snd] in Hlo, Hhi.
  split.
  - destruct (isDisabled props) eqn:Hd.
    + unfold isCellDisabled. rewrite Hd. reflexivity.
    + apply isCellDisabled_false. repeat split; assumption.
  - unfold isCellFocused, isSameDay. rewrite Z.eqb_refl.
    apply andb_true_r.
Qed.

(** X11.  The check of the next range tests the day the start plus the
    visible duration falls on.  With the bounds in order, in the state a
    render is committed in, the previous range is invalid exactly when
    there is a lower bound and the window starts on its day or before, and
    the next range is invalid exactly when there is an upper bound and the
    visible range ends on its day or after. *)
Theorem range_checks_tell_bounds_reached :
  forall (props : CalendarStateOptions) (s : HookState),
    boundsOrdered (minValue props) (maxValue props) ->
    updates props s = false ->
    isNextVisibleRangeInvalid props s
    = isInvalidDate props (add (startDate s) (visibleDuration props))
    /\ (isPreviousVisibleRangeInvalid props s = true <->
        exists mn, minValue props = Some mn
                   /\ toJulianDay (startDate s) <= toJulianDay (dateOf mn))
    /\ (isNextVisibleRangeInvalid props s = true <->
        exists mx, maxValue props = Some mx
                   /\ toJulianDay (dateOf mx) <= toJulianDay (endDate props s)).
Proof.
  intros props s Hord Hu.
  pose proof (settled_inWindow props s Hord Hu) as [_ [Hlo Hhi]].
  apply (updates_false props s Hord) in Hu.
  destruct Hu as (_ & Hi & _ & _).
  cbn [visibleRange fst snd] in Hlo, Hhi.
  apply isInvalid_false in Hi. destruct Hi as [Hmn Hmx].
  split; [|split].
  - unfold isNextVisibleRangeInvalid, isInvalidDate, endDate.
    apply isInvalid_same_day.
    rewrite add_days_day, subtract_days_day. lia.
  - unfold isPreviousVisibleRangeInvalid, isInvalidDate, isInvalid, compare,
      toCalendarDate.
    rewrite subtract_days_day. split.
    + intros H. apply orb_prop in H. destruct H as [H|H].
      * destruct (minValue props) as [mn|]; [|discriminate].
        exists mn. split; [reflexivity|]. by_days.
      * destruct (maxValue props) as [mx|]; [|discriminate].
        specialize (Hmx mx eq_refl). by_days.
    + intros (mn & Hm & Hle). rewrite Hm. apply orb_true_iff. left. by_days.
  - unfold isNextVisibleRangeInvalid, isInvalidDate, isInvalid, compare,
      toCalendarDate.
    rewrite add_days_day. split.
    + intros H. apply orb_prop in H. destruct H as [H|H].
      * destruct (minValue props) as [mn|]; [|discriminate].
        specialize (Hmn mn eq_refl). by_days.
      * destruct (maxValue props) as [mx|]; [|discriminate].
        exists mx. split; [reflexivity|]. by_days.
    + intros (mx & Hm & Hle). rewrite Hm. apply orb_true_iff. right. by_days.
Qed.

(** X12.  With the bounds in order and the focused date not controlled, in
    the state a render is committed in, focusing the start or the end of
    the page leaves nothing for the next render to repair: the focused date
    stays within the bounds and inside the window, which therefore does not
    move. *)
Theorem page_start_and_end_keep_the_window :
  forall (props : CalendarStateOptions) (s : HookState),
    boundsOrdered (minValue props) (maxValue props) ->
    focusedValue props = None ->
    updates props s = false ->
    updates props (focusPageStart props s s) = false
    /\ updates props (focusPageEnd props s s) = false
    /\ render alignCenter props (focusPageStart props s s)
       = focusPageStart props s s
    /\ render alignCenter props (focusPageEnd props s s)
       = focusPageEnd props s s.
Proof.
  intros props s Hord Hfv Hu.
  pose proof (settled_inWindow props s Hord Hu) as [[Hlo Hlt] [_ Hhi]].
  pose proof Hu as Hu'. apply (updates_false props s Hord) in Hu'.
  destruct Hu' as (Hc & Hi & _ & _).
  cbn [visibleRange fst snd] in Hhi.
  assert (Hend : toJulianDay (endDate props s)
                 = toJulianDay (add (startDate s) (visibleDuration props)) - 1)
    by (unfold endDate; apply subtract_days_day).
  assert (Hset : forall d,
            focusedDate props (focusCell props d s)
            = constrainValue d (minValue props) (maxValue props)).
  { intros d.
    unfold focusedDate, focusedCalendarDate, useControlledState, focusCell,
      setFocusedDateState.
    rewrite Hfv. reflexivity. }
  assert (Hkeeps : forall d,
            toJulianDay (startDate s) <= toJulianDay d ->
            toJulianDay d
            < toJulianDay (add (startDate s) (visibleDuration props)) ->
            updates props (focusCell props d s) = false).
  { intros d Hd1 Hd2. apply updates_false; [assumption|].
    rewrite Hset.
    change (startDate (focusCell props d s)) with (startDate s).
    split; [exact Hc|].
    split; [apply constrainValue_valid; assumption|].
    apply isInvalid_false in Hi. destruct Hi as [Hmn Hmx].
    unfold constrainValue, maxDate, minDate, compare, toCalendarDate.
    destruct (minValue props) as [mn|]; [specialize (Hmn mn eq_refl)|];
      (destruct (maxValue props) as [mx|]; [specialize (Hmx mx eq_refl)|]);
      split; by_days. }
  assert (H1 : updates props (focusPageStart props s s) = false)
    by (apply Hkeeps; lia).
  assert (H2 : updates props (focusPageEnd props s s) = false)
    by (apply Hkeeps; lia).
  repeat split; try assumption; apply settled_render; assumption.
Qed.

(** *** Mounting *)

Lemma render_quiet props s :
  calendarChanged props s = false ->
  isInvalid (focusedDate props s) (minValue props) (maxValue props) = false ->
  valueState (render alignCenter props s) = valueState s
  /\ focusedState (render alignCenter props s) = focusedState s
  /\ notified (render alignCenter props s) = notified s.
Proof.
  intros Hc Hi. unfold render. rewrite Hc, Hi.
  destruct (compare _ (startDate s) <? 0);
    try destruct (compare _ (add _ _) >=? 0); repeat split.
Qed.

Lemma mount_current props :
  calendarChanged props (mount alignCenter props) = false.
Proof.
  unfold calendarChanged, mount. cbn [lastCalendarIdentifier].
  rewrite String.eqb_refl. reflexivity.
Qed.

(** X13.  With the bounds in order, mounting reports nothing to the owner:
    however many renders follow the mount under the same properties, no
    change of value and no change of focus is reported, and the value and
    the focused date are the initial ones. *)
Theorem mounting_reports_nothing :
  forall (props : CalendarStateOptions) (n : nat),
    boundsOrdered (minValue props) (maxValue props) ->
    let s := Nat.iter n (render alignCenter props) (mount alignCenter props) in
    notified s = []
    /\ valueState s = initialValue props
    /\ focusedState s = focusedState (mount alignCenter props).
Proof.
  intros props n Hord s. subst s.
  assert (H : let s :=
                Nat.iter n (render alignCenter props) (mount alignCenter props)
              in
              calendarChanged props s = false
              /\ storedFocusValid (minValue props) (maxValue props) s
              /\ notified s = []
              /\ valueState s = initialValue props
              /\ focusedState s = focusedState (mount alignCenter props)).
  { cbv zeta. induction n as [|n IH]; [cbn [Nat.iter nat_rect] | rewrite Nat.iter_succ].
    - repeat split.
      + apply mount_current.
      + apply mount_valid. assumption.
    - destruct IH as (Hc & Hv & Hn & Hval & Hf).
      pose proof (focusedDate_valid props _ _ _ eq_refl eq_refl Hord Hv) as Hi.
      destruct (render_quiet props _ Hc Hi) as (Q1 & Q2 & Q3).
      repeat split.
      + apply render_current.
      + apply render_valid; auto.
      + rewrite Q3. exact Hn.
      + rewrite Q1. exact Hval.
      + rewrite Q2. exact Hf. }
  cbv zeta in H. tauto.
Qed.

(** X14.  When the focus is given by no property and there is an initial
    value within the bounds, the hook mounts with the focus on the day of
    that value, as a date of the calendar system on display. *)
Theorem mount_focuses_day_of_value :
  forall (props : CalendarStateOptions) (v : DateValue),
    focusedValue props = None ->
    defaultFocusedValue props = None ->
    initialValue props = Some v ->
    isInvalid (dateOf v) (minValue props) (maxValue props) = false ->
    let focused := focusedDate props (mount alignCenter props) in
    toJulianDay focused = toJulianDay (dateOf v)
    /\ identifier (calendarOf focused) = identifier (calendar props)
    /\ option_map toJulianDay (calendarDateValue props (mount alignCenter props))
       = Some (toJulianDay focused).
Proof.
  intros props v Hfv Hdfv Hv Hi focused.
  assert (Hf : focused = toCalendar (dateOf v) (calendar props)).
  { subst focused.
    unfold focusedDate, focusedCalendarDate, useControlledState, mount.
    rewrite Hfv. cbn [focusedState].
    unfold focusedCalendarDate. rewrite Hfv.
    unfold defaultFocusedCalendarDateOf. rewrite Hdfv.
    unfold initialValue in Hv. rewrite Hv.
    cbn [calendarDateValueOf toCalendarDate].
    apply constrainValue_fixes_valid.
    rewrite (isInvalid_same_day _ (dateOf v)); [assumption|].
    apply toCalendar_day. }
  rewrite Hf. split; [apply toCalendar_day|].
  split; [apply toCalendar_identifier|].
  unfold calendarDateValue, value, useControlledState, mount.
  cbn [valueState]. unfold initialValue in Hv.
  destruct (valueOption props) as [v0|]; cbn [option_map].
  - injection Hv as ->. cbn [calendarDateValueOf option_map toCalendarDate].
    reflexivity.
  - rewrite Hv. cbn [calendarDateValueOf option_map toCalendarDate].
    reflexivity.
Qed.

End MoreHookFacts.

(** ** Properties of the branch action *)

Module BranchActionFacts.
Import BranchAction.

(** Splits a run on what the service answers to each request the script
    can make, and computes the run in each case. *)
Ltac run_cases octokit ctx :=
  unfold run, body, bind, tryCatch, await, ret, throw;
  cbn [app];
  destruct (pulls_get octokit (contextRepo ctx) (issueNumber ctx))
    as [e0|data] eqn:Hpull;
  [|destruct (repos_getBranch octokit (contextRepo ctx) (branchOf data))
      as [e1|res] eqn:Hlookup;
    [destruct (isNotFound e1) eqn:Hnf; cbn [negb];
     [destruct (git_createRef octokit (contextRepo ctx)
                  ("refs/heads/" ++ branchOf data)%string (mergeCommitSha data))
        as [e2|[]] eqn:Hcreate|]
    |destruct (responseStatus res =? 200) eqn:Hst;
     [destruct (git_updateRef octokit (contextRepo ctx)
                  (mergeCommitSha data) ("heads/" ++ branchOf data)%string true)
        as [e2|[]] eqn:Hupdate|]]];
  cbn [app requests failed filter isWrite List.length].

(** X15.  A run of the branch action first asks for the pull request the
    comment was made on, makes at most three requests and writes at most
    once; what it writes is the branch named after the fork's owner and
    branch, in the repository of the workflow, set to the merge commit of
    the pull request: created under [refs/heads/], or updated with force
    under [heads/]. *)
Theorem run_writes_one_branch :
  forall (octokit : Octokit) (context : Context),
    let out := run octokit context in
    (exists rest,
        requests out
        = PullsGet (contextRepo context) (issueNumber context) :: rest
        /\ (List.length rest <= 2)%nat)
    /\ (List.length (filter isWrite (requests out)) <= 1)%nat
    /\ (forall r, In r (requests out) -> isWrite r = true ->
        exists data,
          pulls_get octokit (contextRepo context) (issueNumber context)
          = inr data
          /\ (r = CreateRef (contextRepo context)
                    ("refs/heads/" ++ branchOf data)%string
                    (mergeCommitSha data)
              \/ r = UpdateRef (contextRepo context) (mergeCommitSha data)
                       ("heads/" ++ branchOf data)%string true)).
Proof.
  intros octokit ctx out. subst out.
  run_cases octokit ctx;
    (split; [eexists; split; [reflexivity | cbn [List.length]; lia]|]);
    (split; [lia|]);
    intros r Hin Hw;
    repeat (destruct Hin as [<-|Hin]; [try discriminate Hw|]);
    try contradiction;
    exists data; split; auto.
Qed.

(** X16.  The branch is created exactly when the pull request was found
    and the lookup of the branch threw an [HttpError] with status 404; it
    is updated exactly when the pull request was found and the lookup
    answered with status 200.  A run never does both. *)
Theorem create_when_missing_update_when_present :
  forall (octokit : Octokit) (context : Context),
    let out := run octokit context in
    let created :=
      existsb (fun r => match r with CreateRef _ _ _ => true | _ => false end)
        (requests out) in
    let updated :=
      existsb (fun r => match r with UpdateRef _ _ _ _ => true | _ => false end)
        (requests out) in
    (created = true <->
     exists data e,
       pulls_get octokit (contextRepo context) (issueNumber context) = inr data
       /\ repos_getBranch octokit (contextRepo context) (branchOf data) = inl e
       /\ isNotFound e = true)
    /\ (updated = true <->
        exists data res,
          pulls_get octokit (contextRepo context) (issueNumber context)
          = inr data
          /\ repos_getBranch octokit (contextRepo context) (branchOf data)
             = inr res
          /\ responseStatus res = 200)
    /\ created && updated = false.
Proof.
  intros octokit ctx out created updated. subst created updated out.
  run_cases octokit ctx; cbn [existsb orb andb];
    (split; [|split; [|reflexivity]]);
    (split;
     [ intros H; try discriminate H;
       try (eexists; eexists; repeat split; try eassumption;
            apply Z.eqb_eq; assumption)
     | intros (d' & x & H1 & H2 & H3); try reflexivity;
       try discriminate H1;
       injection H1 as <-; rewrite Hlookup in H2; try discriminate H2;
       injection H2 as <-;
       try (rewrite Hnf in H3; discriminate H3);
       try (apply Z.eqb_eq in H3; rewrite Hst in H3; discriminate H3) ]).
Qed.

(** X17.  The action fails exactly when one of its requests was answered
    with an error other than the missing branch it puts up with; that
    request is then the last one it made, and the message it fails with is
    the message of that error. *)
Theorem run_fails_with_first_error :
  forall (octokit : Octokit) (context : Context),
    let out := run octokit context in
    (failed out = None <->
     forall r e, In r (requests out) -> errorOf octokit r = Some e ->
                 tolerated r e = true)
    /\ (forall m, failed out = Some m ->
        exists r e,
          last (requests out) r = r
          /\ In r (requests out)
          /\ errorOf octokit r = Some e
          /\ tolerated r e = false
          /\ m = message e).
Proof.
  intros octokit ctx out. subst out.
  run_cases octokit ctx;
    (split;
     [ split;
       [ intros H; try discriminate H;
         intros r e Hin He;
         repeat (destruct Hin as [<-|Hin];
                 [cbn [errorOf] in He;
                  rewrite ?Hpull, ?Hlookup, ?Hcreate, ?Hupdate in He;
                  try discriminate He;
                  injection He as <-; cbn [tolerated]; try assumption|]);
         contradiction
       | intros H; try reflexivity; exfalso;
         first
           [ specialize (H _ e2 (or_intror (or_intror (or_introl eq_refl))));
             cbn [errorOf] in H; rewrite ?Hcreate, ?Hupdate in H;
             specialize (H eq_refl); discriminate H
           | specialize (H _ e1 (or_intror (or_introl eq_refl)));
             cbn [errorOf] in H; rewrite Hlookup in H;
             specialize (H eq_refl); cbn [tolerated] in H;
             rewrite Hnf in H; discriminate H
           | specialize (H _ e0 (or_introl eq_refl));
             cbn [errorOf] in H; rewrite Hpull in H;
             specialize (H eq_refl); discriminate H ] ]
     | intros m Hm; try discriminate Hm; injection Hm as <-;
       first
         [ solve
             [ exists (PullsGet (contextRepo ctx) (issueNumber ctx)), e0;
               cbn [last errorOf tolerated In]; rewrite Hpull;
               repeat split; auto ]
         | solve
             [ exists (GetBranch (contextRepo ctx) (branchOf data)), e1;
               cbn [last errorOf tolerated In]; rewrite Hlookup;
               repeat split; auto ]
         | solve
             [ exists (CreateRef (contextRepo ctx)
                         ("refs/heads/" ++ branchOf data)%string
                         (mergeCommitSha data)), e2;
               cbn [last errorOf tolerated In]; rewrite Hcreate;
               repeat split; auto 6 ]
         | solve
             [ exists (UpdateRef (contextRepo ctx) (mergeCommitSha data)
                         ("heads/" ++ branchOf data)%string true), e2;
               cbn [last errorOf tolerated In]; rewrite Hupdate;
               repeat split; auto 6 ] ] ]).
Qed.

End BranchActionFacts.

(** ** Worked examples *)

Import Example.

(** A run with a page step, a switch to the Persian calendar, a request to
    focus day 30 and a step to the next day keeps the focused date between
    day 1 and day 10. *)
Lemma focused_date_within_bounds_witness :
  let steps :=
    [Calling FocusNextPage; Rendering week; Rendering weekPersian;
     Calling (SetFocusedDate (gregorian 30)); Calling FocusNextDay;
     Rendering weekPersian] in
  let m := run center keep steps (mounted center week) in
  @boundsOrdered Schematic (minValue week) (maxValue week)
  /\ rendersUnder (minValue week) (maxValue week) steps
  /\ @isInvalid Schematic (focusedDate (renderedProps m) (renderedState m))
       (minValue week) (maxValue week) = false
  /\ @isInvalid Schematic (focusedDate (renderedProps m) (current m))
       (minValue week) (maxValue week) = false.
Proof.
  intros steps m.
  assert (Hord : @boundsOrdered Schematic (minValue week) (maxValue week))
    by (simpl; lia).
  assert (Hall : rendersUnder (minValue week) (maxValue week) steps)
    by (subst steps; unfold rendersUnder;
        repeat (constructor; [cbn; auto|]); constructor).
  split; [exact Hord|]. split; [exact Hall|].
  exact (@focused_date_within_bounds Schematic center keep week steps
           Hord Hall).
Defined.

(** With the default visible duration of one month, from day 150 focused
    (past the last date, day 100) in a window starting at day 200, the
    renders commit a state whose window contains the focused date. *)
Lemma visible_window_contains_focus_witness :
  @boundsOrdered Schematic (minValue month) (maxValue month)
  /\ @advances Schematic (@visibleDuration Schematic month)
  /\ exists s',
       commit center 25 month (at_ 150 200) = Some s'
       /\ inWindow month s' /\ inVisibleRange month s'.
Proof.
  assert (Hord : @boundsOrdered Schematic (minValue month) (maxValue month))
    by (simpl; lia).
  assert (Hadv : @advances Schematic (@visibleDuration Schematic month))
    by (intros d; simpl; lia).
  split; [exact Hord|]. split; [exact Hadv|].
  exact (proj1 (@visible_window_contains_focus Schematic center month
                  (at_ 150 200) Hord Hadv) 22%nat).
Defined.

(** Selecting Gregorian day 8 while noon of Persian day 3 is the value. *)
Lemma selection_emits_in_value_calendar_witness :
  isDisabled weekAtNoon = false
  /\ isReadOnly weekAtNoon = false
  /\ @emitsSelection Schematic weekAtNoon (at_ 5 3) (at_ 5 3) (gregorian 8)
       (selectDate weekAtNoon (at_ 5 3) (gregorian 8) (at_ 5 3)).
Proof.
  split; [reflexivity|]. split; [reflexivity|].
  exact (proj1 (@selection_emits_in_value_calendar Schematic weekAtNoon
                  (at_ 5 3) (at_ 5 3) (gregorian 8) eq_refl eq_refl)).
Defined.

(** The Persian locale arrives while day 5 is focused in the window that
    starts at day 3. *)
Lemma calendar_switch_recenters_example :
  @calendarChanged Schematic weekPersian (at_ 5 3) = true
  /\ @isInvalid Schematic (focusedDate weekPersian (at_ 5 3))
       (minValue weekPersian) (maxValue weekPersian) = false
  /\ @inWindow Schematic weekPersian (at_ 5 3)
  /\ @focusedDate Schematic weekPersian (render center weekPersian (at_ 5 3))
     = ("persian", 5)
  /\ @startDate Schematic (render center weekPersian (at_ 5 3))
     = ("persian", 2).
Proof.
  assert (Hc : @calendarChanged Schematic weekPersian (at_ 5 3) = true)
    by reflexivity.
  assert (Hw : @inWindow Schematic weekPersian (at_ 5 3))
    by (split; simpl; lia).
  split; [exact Hc|]. split; [reflexivity|]. split; [exact Hw|].
  pose proof (@calendar_switch_recenters Schematic center weekPersian
                (at_ 5 3) Hc eq_refl) as H.
  cbv zeta in H. destruct H as (_ & Hf & _ & _ & _ & Hs).
  split; [exact (Hf eq_refl) | exact (Hs Hw)].
Defined.

(** Day 2 is focused while the window starts at day 5. *)
Lemma render_realigns_window_witness :
  @isInvalid Schematic (focusedDate week (at_ 2 5))
    (minValue week) (maxValue week) = false
  /\ @compare Schematic (focusedDate week (at_ 2 5)) (startDate (at_ 2 5)) < 0
  /\ @startDate Schematic (render center week (at_ 2 5))
     = alignEnd (focusedDate week (at_ 2 5)) (visibleDuration week)
         (locale week) (minValue week) (maxValue week).
Proof.
  assert (Hlt : @compare Schematic (focusedDate week (at_ 2 5))
                  (startDate (at_ 2 5)) < 0) by (vm_compute; reflexivity).
  split; [reflexivity|]. split; [exact Hlt|].
  exact (proj1 (@render_realigns_window Schematic center week (at_ 2 5)
                  eq_refl) Hlt).
Defined.

(** A render with day 5 focused in the window that starts at day 3, and
    renders from day 50 focused in the window that starts at day 40. *)
Lemma renders_reach_fixed_point_witness :
  let r := render center week in
  (@calendarChanged Schematic week (at_ 5 3) = false
   /\ @isInvalid Schematic (focusedDate week (at_ 5 3))
        (minValue week) (maxValue week) = false
   /\ @inWindow Schematic week (at_ 5 3)
   /\ r (at_ 5 3) = at_ 5 3)
  /\ @boundsOrdered Schematic (minValue week) (maxValue week)
  /\ r (r (r (r (at_ 50 40)))) = r (r (r (at_ 50 40)))
  /\ r (r (r (at_ 50 40))) = r (r (at_ 50 40)).
Proof.
  intros r.
  assert (Hw : @inWindow Schematic week (at_ 5 3)) by (split; simpl; lia).
  assert (Hord : @boundsOrdered Schematic (minValue week) (maxValue week))
    by (simpl; lia).
  split.
  - split; [reflexivity|]. split; [reflexivity|]. split; [exact Hw|].
    exact (proj1 (@renders_reach_fixed_point Schematic center week (at_ 5 3))
             eq_refl eq_refl Hw).
  - split; [exact Hord|].
    pose proof (proj2 (@renders_reach_fixed_point Schematic center week
                         (at_ 50 40)) Hord) as H.
    destruct H as (H4 & H3).
    split; [exact H4 | exact (H3 eq_refl eq_refl)].
Defined.

(** Selecting day 8 in a disabled calendar. *)
Lemma selection_blocked_when_disabled_or_read_only_witness :
  isDisabled weekDisabled || isReadOnly weekDisabled = true
  /\ @selectDate Schematic weekDisabled (at_ 5 3) (gregorian 8) (at_ 5 3)
     = at_ 5 3.
Proof.
  split; [reflexivity|].
  exact (proj1 (proj2
    (@selection_blocked_when_disabled_or_read_only Schematic weekDisabled
       (at_ 5 3) (at_ 5 3) (gregorian 8) eq_refl))).
Defined.

(** Day 10 is the selected value and within the bounds, but the visible
    range ends at day 9: its cell is disabled and not selected. *)
Lemma cell_outside_visible_range_disabled_witness :
  @compare Schematic (gregorian 10) (snd (visibleRange weekDayTen (at_ 5 3)))
  > 0
  /\ isDisabled weekDayTen = false
  /\ @isInvalidDate Schematic weekDayTen (gregorian 10) = false
  /\ option_map (@isSameDay Schematic (gregorian 10))
       (calendarDateValue weekDayTen (at_ 5 3)) = Some true
  /\ @isCellDisabled Schematic weekDayTen (at_ 5 3) (gregorian 10) = true
  /\ @isSelected Schematic weekDayTen (at_ 5 3) (gregorian 10) = false.
Proof.
  assert (Hgt : @compare Schematic (gregorian 10)
                  (snd (visibleRange weekDayTen (at_ 5 3))) > 0)
    by (vm_compute; reflexivity).
  split; [exact Hgt|]. split; [reflexivity|]. split; [reflexivity|].
  split; [reflexivity|].
  exact (@cell_outside_visible_range_disabled Schematic weekDayTen (at_ 5 3)
           (gregorian 10) (or_intror Hgt)).
Defined.



(** C6.  The hook at a calendar switch that finds the focused date outside
    the visible window: day 9 is focused by a call while the window starts
    at day -2, and the next render is under the Persian locale.  The render
    converts the focused date, but its realignment test, made on the
    focused date as it was, sets the start of the window after the
    re-centering did.  The state that results is committed as it is (no
    render has anything left to update): the focused date is a Persian
    date while the visible range runs from Gregorian day 9 to Gregorian
    day 15, dates of the calendar system that was left, and the window does
    not start at [alignCenter] of the converted date. *)
Lemma calendar_switch_realigned_not_recentered :
  let before :=
    run center keep [Calling (SetFocusedDate (gregorian 9))]
      (mounted center week) in
  let after := render center weekPersian (current before) in
  @calendarChanged Schematic weekPersian (current before) = true
  /\ @focusedDate Schematic weekPersian (current before) = ("gregory", 9)
  /\ @startDate Schematic (current before) = ("gregory", -2)
  /\ @focusedDate Schematic weekPersian after = ("persian", 9)
  /\ @visibleRange Schematic weekPersian after
     = (("gregory", 9), ("gregory", 15))
  /\ @updates Schematic weekPersian after = false
  /\ commit center 25 weekPersian (current before) = Some after
  /\ identifier (@calendar Schematic weekPersian) = "persian"
  /\ @startDate Schematic after
     <> center (toCalendar (gregorian 9) (calendar weekPersian))
          (visibleDuration weekPersian) (locale weekPersian)
          (minValue weekPersian) (maxValue weekPersian).
Proof. repeat split; try reflexivity. vm_compute. discriminate. Qed.

(** C8, counterexample.  Day 50 is focused under dates up to day 100, then
    the owner lowers the upper bound to day 10: the first render under the
    new bound clamps the focused date to day 10 and leaves the window at
    day 50, the second one moves the window to day 4, so that two renders
    are not one.  Besides, three renders are not two in a calendar whose
    months are uneven, with the default duration of one month, day 150
    focused past the last date, day 100, and the window at day 200: the
    first render clamps the focused date, the second closes the window at
    it, which leaves it outside, and the third opens the window at it.
    Four renders are not three with the bounds out of order, when the
    focused date is clamped and reported again by every render.  And a
    render changes a state whose calendar identifier is not the one on
    record, and a state whose focused date is outside the window. *)
Lemma single_render_not_idempotent :
  let s :=
    current
      (run center keep
         [Calling (SetFocusedDate (gregorian 50)); Rendering weekOfHundred]
         (mounted center weekOfHundred)) in
  let r := render center week in
  let u := render UnevenExample.center UnevenExample.month in
  let o := render center weekOutOfOrder in
  ((@focusedDate Schematic week s = ("gregory", 50)
    /\ @startDate Schematic s = ("gregory", 50))
   /\ (@focusedDate Schematic week (r s) = ("gregory", 10)
       /\ @startDate Schematic (r s) = ("gregory", 50))
   /\ (@focusedDate Schematic week (r (r s)) = ("gregory", 10)
       /\ @startDate Schematic (r (r s)) = ("gregory", 4))
   /\ r (r s) <> r s
   /\ r s <> s)
  /\ (@boundsOrdered Uneven (minValue UnevenExample.month)
        (maxValue UnevenExample.month)
      /\ @startDate Uneven (u (UnevenExample.at_ 150 200)) = ("gregory", 200)
      /\ @startDate Uneven (u (u (UnevenExample.at_ 150 200)))
         = ("gregory", 70)
      /\ @startDate Uneven (u (u (u (UnevenExample.at_ 150 200))))
         = ("gregory", 100)
      /\ u (u (u (UnevenExample.at_ 150 200)))
         <> u (u (UnevenExample.at_ 150 200)))
  /\ (~ @boundsOrdered Schematic (minValue weekOutOfOrder)
         (maxValue weekOutOfOrder)
      /\ o (o (o (o (at_ 5 3)))) <> o (o (o (at_ 5 3))))
  /\ (@calendarChanged Schematic weekPersian (at_ 5 3) = true
      /\ @inWindow Schematic weekPersian (at_ 5 3)
      /\ render center weekPersian (at_ 5 3) <> at_ 5 3)
  /\ (~ @inWindow Schematic week (at_ 2 5)
      /\ @calendarChanged Schematic week (at_ 2 5) = false
      /\ r (at_ 2 5) <> at_ 2 5).
Proof.
  repeat split; try reflexivity; try (simpl; lia).
  - intros H. apply (f_equal (@startDate Schematic)) in H.
    vm_compute in H. discriminate H.
  - intros H. apply (f_equal (@focusedState Schematic)) in H.
    vm_compute in H. discriminate H.
  - intros H. apply (f_equal (@startDate Uneven)) in H.
    vm_compute in H. discriminate H.
  - intros H. apply (f_equal (fun x => List.length (@notified Schematic x))) in H.
    vm_compute in H. discriminate H.
  - intros H. apply (f_equal (@focusedState Schematic)) in H.
    vm_compute in H. discriminate H.
  - intros [H _]. simpl in H. lia.
  - intros H. apply (f_equal (@startDate Schematic)) in H.
    vm_compute in H. discriminate H.
Qed.

(** ** Worked examples of the further properties *)

(** Day 6 is selected in the week that starts at day 3. *)
Lemma selected_date_is_selected_witness :
  valueOption week = None
  /\ isReadOnly week = false
  /\ @isCellDisabled Schematic week (at_ 5 3) (gregorian 6) = false
  /\ @isCellUnavailable Schematic week (gregorian 6) = false
  /\ @isSelected Schematic week
       (selectDate week (at_ 5 3) (gregorian 6) (at_ 5 3)) (gregorian 6)
     = true.
Proof.
  repeat (split; [reflexivity|]).
  exact (proj1 (@selected_date_is_selected Schematic week (at_ 5 3) (at_ 5 3)
                  (gregorian 6) eq_refl eq_refl eq_refl eq_refl)).
Defined.

(** Day 30 is asked for and day 10 gets the focus. *)
Lemma focused_date_is_focused_witness :
  focusedValue week = None
  /\ @focusedDate Schematic week (setFocusedDate week (gregorian 30) (at_ 5 3))
     = gregorian 10
  /\ @isCellFocused Schematic week
       (setFocusedDate week (gregorian 30) (at_ 5 3)) (gregorian 10)
     = true.
Proof.
  split; [reflexivity|].
  pose proof (@focused_date_is_focused Schematic week (at_ 5 3) (gregorian 30)
                eq_refl) as H.
  cbv zeta in H. destruct H as (Hf & _ & Hc & _).
  split; [exact Hf | exact Hc].
Defined.

(** From day 5 to day 6 and back. *)
Lemma next_day_and_previous_day_cancel_witness :
  focusedValue week = None
  /\ @isInvalid Schematic (focusedDate week (at_ 5 3))
       (minValue week) (maxValue week) = false
  /\ @isInvalid Schematic (add (focusedDate week (at_ 5 3)) (ofDays 1))
       (minValue week) (maxValue week) = false
  /\ @toJulianDay Schematic
       (focusedDate week
          (current
             (run center keep
                [Calling FocusNextDay; Rendering week;
                 Calling FocusPreviousDay]
                {| renderedProps := week; renderedState := at_ 5 3;
                   current := at_ 5 3 |})))
     = 5.
Proof.
  repeat (split; [reflexivity|]).
  exact (proj1 (@next_day_and_previous_day_cancel Schematic center keep week
                  (at_ 5 3) eq_refl eq_refl) eq_refl).
Defined.

(** The next day from day 10, the last one. *)
Lemma day_navigation_stops_at_bounds_witness :
  @boundsOrdered Schematic (minValue week) (maxValue week)
  /\ focusedValue week = None
  /\ @focusedDate Schematic week (focusNextDay week (at_ 10 4) (at_ 10 4))
     = gregorian 10.
Proof.
  assert (Hord : @boundsOrdered Schematic (minValue week) (maxValue week))
    by (simpl; lia).
  split; [exact Hord|]. split; [reflexivity|].
  exact (proj1 (@day_navigation_stops_at_bounds Schematic week (at_ 10 4)
                  (at_ 10 4) Hord eq_refl)
           (plainDate (gregorian 10)) eq_refl eq_refl).
Defined.

(** Day 6 is the value and its cell is selected. *)
Lemma selected_cell_is_enabled_day_of_value_witness :
  let props := options "en-US" 10 false (Some (plainDate (gregorian 6))) in
  @isSelected Schematic props (at_ 5 3) (gregorian 6) = true
  /\ exists v,
       value props (at_ 5 3) = Some v
       /\ @toJulianDay Schematic (gregorian 6) = toJulianDay (dateOf v)
       /\ isDisabled props = false
       /\ toJulianDay (fst (visibleRange props (at_ 5 3)))
          <= @toJulianDay Schematic (gregorian 6)
       /\ @toJulianDay Schematic (gregorian 6)
          <= toJulianDay (snd (visibleRange props (at_ 5 3)))
       /\ isInvalid (gregorian 6) (minValue props) (maxValue props) = false
       /\ isCellUnavailable props (gregorian 6) = false.
Proof.
  intros props. split; [reflexivity|].
  exact (@selected_cell_is_enabled_day_of_value Schematic props (at_ 5 3)
           (gregorian 6) eq_refl).
Defined.

(** Day 5 focused in the week that starts at day 3. *)
Lemma committed_focus_is_an_enabled_cell_witness :
  @boundsOrdered Schematic (minValue week) (maxValue week)
  /\ @updates Schematic week (at_ 5 3) = false
  /\ @isCellDisabled Schematic week (at_ 5 3) (focusedDate week (at_ 5 3))
     = isDisabled week.
Proof.
  assert (Hord : @boundsOrdered Schematic (minValue week) (maxValue week))
    by (simpl; lia).
  split; [exact Hord|]. split; [reflexivity|].
  exact (proj1 (@committed_focus_is_an_enabled_cell Schematic week (at_ 5 3)
                  Hord eq_refl)).
Defined.

(** The week from day 4 to day 10 ends on the upper bound. *)
Lemma range_checks_tell_bounds_reached_witness :
  @boundsOrdered Schematic (minValue week) (maxValue week)
  /\ @updates Schematic week (at_ 5 4) = false
  /\ (@isNextVisibleRangeInvalid Schematic week (at_ 5 4) = true <->
      exists mx, maxValue week = Some mx
                 /\ toJulianDay (dateOf mx)
                    <= toJulianDay (endDate week (at_ 5 4))).
Proof.
  assert (Hord : @boundsOrdered Schematic (minValue week) (maxValue week))
    by (simpl; lia).
  split; [exact Hord|]. split; [reflexivity|].
  exact (proj2 (proj2 (@range_checks_tell_bounds_reached Schematic week
                         (at_ 5 4) Hord eq_refl))).
Defined.

(** The start and the end of the week that starts at day 3. *)
Lemma page_start_and_end_keep_the_window_witness :
  @boundsOrdered Schematic (minValue week) (maxValue week)
  /\ focusedValue week = None
  /\ @updates Schematic week (at_ 5 3) = false
  /\ @updates Schematic week (focusPageStart week (at_ 5 3) (at_ 5 3)) = false
  /\ @updates Schematic week (focusPageEnd week (at_ 5 3) (at_ 5 3)) = false.
Proof.
  assert (Hord : @boundsOrdered Schematic (minValue week) (maxValue week))
    by (simpl; lia).
  split; [exact Hord|]. split; [reflexivity|]. split; [reflexivity|].
  pose proof (@page_start_and_end_keep_the_window Schematic center week
                (at_ 5 3) Hord eq_refl eq_refl) as (H1 & H2 & _).
  split; [exact H1 | exact H2].
Defined.

(** Three renders after the mount. *)
Lemma mounting_reports_nothing_witness :
  @boundsOrdered Schematic (minValue week) (maxValue week)
  /\ @notified Schematic (Nat.iter 3 (render center week) (mount center week))
     = [].
Proof.
  assert (Hord : @boundsOrdered Schematic (minValue week) (maxValue week))
    by (simpl; lia).
  split; [exact Hord|].
  exact (proj1 (@mounting_reports_nothing Schematic center week 3%nat Hord)).
Defined.

(** Noon of Persian day 3 is the value: the focus starts on day 3. *)
Lemma mount_focuses_day_of_value_witness :
  focusedValue weekAtNoon = None
  /\ defaultFocusedValue weekAtNoon = None
  /\ @initialValue Schematic weekAtNoon = Some (noon 3)
  /\ @isInvalid Schematic (dateOf (noon 3))
       (minValue weekAtNoon) (maxValue weekAtNoon) = false
  /\ @toJulianDay Schematic (focusedDate weekAtNoon (mount center weekAtNoon))
     = 3.
Proof.
  repeat (split; [reflexivity|]).
  exact (proj1 (@mount_focuses_day_of_value Schematic center weekAtNoon
                  (noon 3) eq_refl eq_refl eq_refl eq_refl)).
Defined.
